(** * dns_compare: a zone file checked against an authoritative server

    A shallow embedding of [dns_compare.py] (Python 2).  The script is one
    module-level program: it reads its options, loads a zone with dnspython,
    asks one name server for every rdata of the zone and counts the answers
    that agree with the zone.

    The embedding follows the script statement by statement:
    - module-level variables ([matches], [mismatches], [match], [result],
      [rd]) are fields of a store; a variable that has not been assigned yet
      is [None] and loading it raises [NameError], as in Python;
    - [print], [sys.stdout.write] and [sys.stdout.flush] append events to a
      trace; [sys.exit] and an exception nobody catches end the run;
    - dnspython is an interface ([DnsPython]) and the network is an oracle
      that is asked once per query; what optparse makes of the command line
      ([Parse]) is an input of the program. *)

From Stdlib Require Import ZArith List String Ascii Bool Lia DecimalString Permutation.
Import ListNotations.

Local Open Scope string_scope.
Local Open Scope list_scope.
Local Open Scope Z_scope.

(** ** The Python runtime the script relies on *)

Module Py.

(** Exception classes of dnspython that [r.query] raises; all of them
    derive from [dns.exception.DNSException]. *)
Inductive DNSException : Type :=
| Timeout
| NXDOMAIN
| NoAnswer
| NoNameservers
| FormError.

(** Exceptions that reach the top level of the script: an unbound name, a
    zone file that cannot be read, a zone file that dnspython rejects. *)
Inductive Exn : Type :=
| NameError (var : string)
| IOError (path : string)
| ZoneError (what : string).

Inductive Stream : Type := Stdout | Stderr.

(** What the process does to its output streams, in order.  [Traceback]
    stands for what the interpreter does with an exception that nobody
    caught: it ends the line that a [print] statement may have left open on
    standard output and writes its report to standard error. *)
Inductive Event : Type :=
| Write (fd : Stream) (text : string)
| Flush (fd : Stream)
| Traceback (e : Exn).

(** How a run ends when it does not fall off the end of the script. *)
Inductive Termination : Type :=
| SysExit (code : Z)
| Uncaught (e : Exn).

(** [str(n)], ['%s' % n] and ['%d' % n] for a Python integer. *)
Definition str_int (n : Z) : string :=
  NilZero.string_of_int (Z.to_int n).

(** The exit status the operating system sees (POSIX keeps the low eight
    bits of the argument of [exit]); an uncaught exception gives 1. *)
Definition exit_status (t : option Termination) : Z :=
  match t with
  | None => 0
  | Some (SysExit code) => code mod 256
  | Some (Uncaught _) => 1
  end.

Definition on_stdout (ev : Event) : bool :=
  match ev with
  | Write Stdout _ | Flush Stdout => true
  | _ => false
  end.

Definition on_stderr (ev : Event) : bool :=
  match ev with
  | Write Stderr _ | Flush Stderr | Traceback _ => true
  | _ => false
  end.

(** The text that has reached a stream. *)
Fixpoint text_of (fd : Stream) (tr : list Event) : string :=
  match tr with
  | [] => ""
  | Write Stdout s :: rest =>
      match fd with
      | Stdout => (s ++ text_of fd rest)%string
      | Stderr => text_of fd rest
      end
  | Write Stderr s :: rest =>
      match fd with
      | Stderr => (s ++ text_of fd rest)%string
      | Stdout => text_of fd rest
      end
  | _ :: rest => text_of fd rest
  end.

(** A newline, and [print line]'s text. *)
Definition nl : string := String "010"%char "".

(** *** Statements

    A statement runs on a store [S]; it completes normally with a value,
    or abruptly ([sys.exit], an exception on its way up). *)
Inductive Completion (S A : Type) : Type :=
| Normal (a : A) (st : S)
| Abrupt (t : Termination) (st : S).
Arguments Normal {S A} a st.
Arguments Abrupt {S A} t st.

Definition Stmt (S A : Type) : Type := S -> Completion S A.

(** The store a statement leaves behind, however it completes. *)
Definition final_store {S A} (c : Completion S A) : S :=
  match c with
  | Normal _ st => st
  | Abrupt _ st => st
  end.

Definition ret {S A} (a : A) : Stmt S A := fun st => Normal a st.

Definition bind {S A B} (m : Stmt S A) (k : A -> Stmt S B) : Stmt S B :=
  fun st =>
    match m st with
    | Normal a st' => k a st'
    | Abrupt t st' => Abrupt t st'
    end.

Definition raise {S A} (e : Exn) : Stmt S A :=
  fun st => Abrupt (Uncaught e) st.

Definition sys_exit {S A} (code : Z) : Stmt S A :=
  fun st => Abrupt (SysExit code) st.

Definition modify {S} (f : S -> S) : Stmt S unit :=
  fun st => Normal tt (f st).

Definition gets {S A} (f : S -> A) : Stmt S A :=
  fun st => Normal (f st) st.

(** Reading a module-level variable: [NameError] when it is unbound. *)
Definition load {S A} (var : string) (slot : S -> option A) : Stmt S A :=
  fun st =>
    match slot st with
    | Some v => Normal v st
    | None => Abrupt (Uncaught (NameError var)) st
    end.

(** [for x in xs: body]; an abrupt completion of the body leaves the loop. *)
Fixpoint for_each {S X} (body : X -> Stmt S unit) (xs : list X) : Stmt S unit :=
  match xs with
  | [] => ret tt
  | x :: rest => bind (body x) (fun _ => for_each body rest)
  end.

End Py.
Import Py.

Declare Scope py_scope.
Delimit Scope py_scope with py.
Notation "x <- m ;; k" := (bind m (fun x => k))
  (at level 61, m at next level, right associativity) : py_scope.
Notation "m ;; k" := (bind m (fun _ => k))
  (at level 61, right associativity) : py_scope.

(** ** dnspython *)

(** [dns.rdatatype.NS] and [dns.rdatatype.SOA], which the script gets from
    [from dns.rdatatype import *]. *)
Definition NS : Z := 2.
Definition SOA : Z := 6.

(** The part of dnspython that the script calls into.  [Name] is
    [dns.name.Name]; [Payload] stands for the type-specific fields of a
    [dns.rdata.Rdata]; [payload_cmp] is the [_cmp] method that every rdata
    type overrides (0 when the two payloads are canonically equal). *)
Class DnsPython : Type := {
  Name : Type;
  Payload : Type;
  name_to_text : Name -> string;
  payload_cmp : Z -> Payload -> Payload -> Z;
  payload_to_text : Z -> Payload -> string
}.

Section Script.

Context {dnspython : DnsPython}.

(** A [dns.rdata.Rdata]: it has a class, a type and its payload, and no
    TTL (the TTL belongs to the rdataset that holds it). *)
Record Rdata : Type := mkRdata {
  rdclass : Z;
  rdtype : Z;
  payload : Payload
}.

(** Modelled from the spec: [Rdata.__eq__], which the test [rd == rdata]
    calls; it belongs to dnspython and is not part of this repository.  Two
    rdatas are equal when class and type are equal and the payloads are
    equal under the canonical comparison of the type. *)
Definition rdata_eq (self other : Rdata) : bool :=
  if negb (rdclass self =? rdclass other) || negb (rdtype self =? rdtype other)
  then false
  else payload_cmp (rdtype self) (payload self) (payload other) =? 0.

(** [str(rdata)] *)
Definition rdata_to_text (r : Rdata) : string :=
  payload_to_text (rdtype r) (payload r).

(** One item of [z.iterate_rdatas()]: [(name, ttl, rdata)]. *)
Definition Entry : Type := Name * Z * Rdata.

(** What [r.query(name, rdtype, rdclass)] does: it returns a
    [dns.resolver.Answer], whose rrset has a TTL and the rdatas that
    iterating the answer yields, or it raises. *)
Inductive QueryResult : Type :=
| Answer (ttl : Z) (rds : list Rdata)
| Raises (e : DNSException).

(** Values the variable [result] takes: the empty string, an rdata, or an
    exception class. *)
Inductive ResultVal : Type :=
| VStr (s : string)
| VRdata (r : Rdata)
| VClass (e : DNSException).

(** The options as [parser.parse_args()] returns them. *)
Record Opts : Type := mkOpts {
  zone : option string;
  zonefile : option string;
  nameserver : option string;
  verbose : bool;
  compare_soa : bool;
  compare_ns : bool
}.

(** What the script finds outside itself: whether dnspython can be
    imported, what loading the zone file gives, and the name server.  The
    server is asked with the number of queries sent before, so that it may
    answer the same question differently each time. *)
Record Env : Type := mkEnv {
  dnspython_installed : bool;
  from_file : string -> string -> Exn + list Entry;
  query : nat -> string -> Name -> Z -> Z -> QueryResult
}.

(** *** The store *)

(** The module-level variables of the script, and the two things it
    changes outside itself: the queries sent so far and the output. *)
Record State : Type := mkState {
  matches : Z;
  mismatches : Z;
  match_ : option bool;
  result : option ResultVal;
  rd : option Rdata;
  issued : nat;
  out : list Event
}.

(** The store before line 36.  The two counters are assigned at lines 74
    and 75 before they are read; [match], [result] and [rd] are unbound. *)
Definition initial : State :=
  mkState 0 0 None None None 0%nat [].

Definition set_matches (n : Z) (st : State) : State :=
  mkState n (mismatches st) (match_ st) (result st) (rd st) (issued st) (out st).
Definition set_mismatches (n : Z) (st : State) : State :=
  mkState (matches st) n (match_ st) (result st) (rd st) (issued st) (out st).
Definition set_match (b : bool) (st : State) : State :=
  mkState (matches st) (mismatches st) (Some b) (result st) (rd st) (issued st) (out st).
Definition set_result (v : ResultVal) (st : State) : State :=
  mkState (matches st) (mismatches st) (match_ st) (Some v) (rd st) (issued st) (out st).
Definition set_rd (r : Rdata) (st : State) : State :=
  mkState (matches st) (mismatches st) (match_ st) (result st) (Some r) (issued st) (out st).
Definition sent (st : State) : State :=
  mkState (matches st) (mismatches st) (match_ st) (result st) (rd st) (S (issued st)) (out st).
Definition emitted (ev : Event) (st : State) : State :=
  mkState (matches st) (mismatches st) (match_ st) (result st) (rd st) (issued st)
    (out st ++ [ev]).

Local Open Scope py_scope.

Definition Stm (A : Type) : Type := Stmt State A.

(** *** Output *)

Definition emit (ev : Event) : Stm unit := modify (emitted ev).

(** The text that [print e1, ..., en] sends once every [ei] is evaluated:
    the items separated by a space, then a newline. *)
Definition print_text (items : list string) : string :=
  (String.concat " " items ++ nl)%string.

(** [print e1, ..., en].  Python 2 evaluates and writes the items one after
    the other, so when [ei] raises, the items before it are already out.
    A statement that runs to its end is recorded as one [Write]. *)
Fixpoint print_items (done : list string) (items : list (Stm string)) : Stm unit :=
  match items with
  | [] => emit (Write Stdout (print_text done))
  | item :: rest =>
      fun st =>
        match item st with
        | Normal s st' => print_items (done ++ [s]) rest st'
        | Abrupt t st' =>
            Abrupt t
              match done with
              | [] => st'
              | _ => emitted (Write Stdout (String.concat " " done)) st'
              end
        end
  end.

Definition print (items : list (Stm string)) : Stm unit := print_items [] items.

(** ['%s' % o] for an option of the command line: the text, or [None]. *)
Definition str_opt (o : option string) : string :=
  match o with
  | Some s => s
  | None => "None"
  end.

Definition is_None {A} (o : option A) : bool :=
  match o with
  | Some _ => false
  | None => true
  end.

(** *** The comparison loop, lines 76 to 114 *)

(** Lines 86 to 89: [for rd in ans: result = rd; if rd == rdata: match = True] *)
Definition answer_loop (rdata : Rdata) (ans : list Rdata) : Stm unit :=
  for_each
    (fun x =>
       modify (set_rd x) ;;
       modify (set_result (VRdata x)) ;;
       if rdata_eq x rdata then modify (set_match true) else ret tt)
    ans.

(** What the [try] statement does with the outcome of the query: the
    answer loop, or the handler of [except DNSException, e]. *)
Definition comparator (rdata : Rdata) (qr : QueryResult) : Stm unit :=
  match qr with
  | Answer _ rds => answer_loop rdata rds
  | Raises e => modify (set_result (VClass e))
  end.

(** Line 85: [r.query(name, rdata.rdtype, rdata.rdclass)], sent to the one
    server of [r.nameservers]. *)
Definition r_query (env : Env) (opts : Opts) (name : Name) (rdata : Rdata)
  : Stm QueryResult :=
  fun st =>
    Normal
      (query env (issued st) (str_opt (nameserver opts)) name
         (rdtype rdata) (rdclass rdata))
      (sent st).

(** Lines 82 to 92 *)
Definition try_query (env : Env) (opts : Opts) (name : Name) (rdata : Rdata)
  : Stm unit :=
  modify (set_match false) ;;
  modify (set_result (VStr "")) ;;
  qr <- r_query env opts name rdata ;;
  comparator rdata qr.

(** Line 101, the text of the banner line *)
Definition banner (description : string) (opts : Opts) (name : Name) (rdata : Rdata)
  : string :=
  (description ++ " querying " ++ str_opt (nameserver opts)
     ++ ": name='" ++ name_to_text name
     ++ "' type='" ++ str_int (rdtype rdata)
     ++ "' class='" ++ str_int (rdclass rdata) ++ "' ...")%string.

(** Lines 95 to 103 *)
Definition verbose_block (opts : Opts) (name : Name) (rdata : Rdata) : Stm unit :=
  m <- load "match" match_ ;;
  let description := if m : bool then "[Match]" else "[MIS-MATCH]" in
  print [ret "----"] ;;
  print [ret (banner description opts name rdata)] ;;
  print [ret "Expected: "; ret (rdata_to_text rdata)] ;;
  print [ret "Got     : "; r <- load "rd" rd ;; ret (rdata_to_text r)].

(** Lines 105 to 114 *)
Definition count_block (opts : Opts) : Stm unit :=
  m <- load "match" match_ ;;
  if m : bool then
    (if negb (verbose opts)
     then emit (Write Stdout ".") ;; emit (Flush Stdout)
     else ret tt) ;;
    modify (fun st => set_matches (matches st + 1) st)
  else
    (if negb (verbose opts)
     then emit (Write Stdout "X") ;; emit (Flush Stdout)
     else ret tt) ;;
    modify (fun st => set_mismatches (mismatches st + 1) st).

(** Lines 77 to 80: the two [continue] tests *)
Definition skipped (opts : Opts) (rdata : Rdata) : bool :=
  if (rdtype rdata =? SOA) && negb (compare_soa opts) then true
  else if (rdtype rdata =? NS) && negb (compare_ns opts) then true
  else false.

(** Lines 82 to 114, what is done for a record that is not skipped *)
Definition compare_record (env : Env) (opts : Opts) (name : Name) (rdata : Rdata)
  : Stm unit :=
  try_query env opts name rdata ;;
  (if verbose opts then verbose_block opts name rdata else ret tt) ;;
  count_block opts.

(** The body of [for (name, ttl, rdata) in z.iterate_rdatas()] *)
Definition loop_body (env : Env) (opts : Opts) (e : Entry) : Stm unit :=
  let '(name, ttl, rdata) := e in
  if skipped opts rdata then ret tt
  else compare_record env opts name rdata.

(** *** The script *)

(** Line 65 *)
Definition missing_required (opts : Opts) : bool :=
  is_None (zone opts) || is_None (zonefile opts) || is_None (nameserver opts).

(** Line 69: [dns.zone.from_file(opts.zonefile, origin=opts.zone,
    relativize=False)]; what it raises is not caught. *)
Definition load_zone (env : Env) (opts : Opts) : Stm (list Entry) :=
  match from_file env (str_opt (zonefile opts)) (str_opt (zone opts)) with
  | inl e => raise e
  | inr z => ret z
  end.

(** Lines 115 to 122 *)
Definition epilogue (opts : Opts) : Stm unit :=
  print [ret "done"] ;;
  print [ret (nl ++ "Results:")%string] ;;
  print [ret "Matches:     "; n <- gets matches ;; ret (str_int n)] ;;
  print [ret "Mis-matches: "; n <- gets mismatches ;; ret (str_int n)] ;;
  n <- gets mismatches ;;
  if negb (verbose opts) && (0 <? n)
  then print [ret " (re-run with --verbose to see details of the mis-matches )"]
  else ret tt.

(** Lines 36 to 44: the [try] around the imports of dnspython *)
Definition import_guard (env : Env) : Stm unit :=
  if dnspython_installed env then ret tt
  else
    print [ret "Please install dnspython:"] ;;
    print [ret "$ sudo easy_install dnspython"] ;;
    sys_exit (-1).

(** Lines 64 to 122: what the script does with the options *)
Definition after_options (env : Env) (opts : Opts) : Stm unit :=
  (if missing_required opts
   then
     print [ret "Error: required arguments: --zone, --file, --server"] ;;
     sys_exit (-1)
   else ret tt) ;;
  z <- load_zone env opts ;;
  modify (set_matches 0) ;;
  modify (set_mismatches 0) ;;
  for_each (loop_body env opts) z ;;
  epilogue opts.

(** Lines 36 to 122, given the options that [parser.parse_args()] returned *)
Definition script (env : Env) (opts : Opts) : Stm unit :=
  import_guard env ;;
  after_options env opts.

(** What [parser.parse_args()] of line 62 does with the command line.
    optparse returns the options, or it ends the run itself: for a command
    line it refuses ([parser.error]) it writes its usage and then its
    message to standard error and calls [sys.exit(2)]; for [-h] or
    [--help] it writes its help to standard output and calls
    [sys.exit(0)].  The three texts are optparse's (they depend on the
    name of the program and on the width of the terminal). *)
Inductive Parse : Type :=
| Parsed (opts : Opts)
| OptionError (usage message : string)
| HelpAsked (help : string).

(** Line 62 *)
Definition parse_args (cmd : Parse) : Stm Opts :=
  match cmd with
  | Parsed opts => ret opts
  | OptionError usage message =>
      emit (Write Stderr usage) ;;
      emit (Write Stderr message) ;;
      sys_exit 2
  | HelpAsked help =>
      emit (Write Stdout help) ;;
      sys_exit 0
  end.

(** Lines 36 to 122, given what optparse makes of the command line *)
Definition program (env : Env) (cmd : Parse) : Stm unit :=
  import_guard env ;;
  opts <- parse_args cmd ;;
  after_options env opts.

(** What the outside sees of a run: the events on the two streams and the
    exit status. *)
Record Process : Type := mkProcess {
  trace : list Event;
  status : Z;
  queries : nat
}.

Definition run (env : Env) (opts : Opts) : Process :=
  match script env opts initial with
  | Normal _ st => mkProcess (out st) (exit_status None) (issued st)
  | Abrupt (SysExit code) st =>
      mkProcess (out st) (exit_status (Some (SysExit code))) (issued st)
  | Abrupt (Uncaught e) st =>
      mkProcess (out st ++ [Traceback e]) (exit_status (Some (Uncaught e))) (issued st)
  end.

(** The process of a whole invocation, line 62 included. *)
Definition invoke (env : Env) (cmd : Parse) : Process :=
  match program env cmd initial with
  | Normal _ st => mkProcess (out st) (exit_status None) (issued st)
  | Abrupt (SysExit code) st =>
      mkProcess (out st) (exit_status (Some (SysExit code))) (issued st)
  | Abrupt (Uncaught e) st =>
      mkProcess (out st ++ [Traceback e]) (exit_status (Some (Uncaught e))) (issued st)
  end.

(** *** Reference definitions, in the words of the specification

    These follow the specification, not the script; the theorems below
    compare the script with them. *)

(** Two rdatas agree: same type, same class, and payloads that are equal
    under the canonical comparison of the type. *)
Definition agree (x rdata : Rdata) : Prop :=
  rdtype x = rdtype rdata /\
  rdclass x = rdclass rdata /\
  payload_cmp (rdtype x) (payload x) (payload rdata) = 0.

(** The verdict on an expected rdata and the outcome of its query: some
    answer equals it; a failed query is a mismatch. *)
Definition expected_verdict (rdata : Rdata) (qr : QueryResult) : bool :=
  match qr with
  | Answer _ rds => existsb (fun x => rdata_eq x rdata) rds
  | Raises _ => false
  end.

(** The records of the zone that are compared, in zone order. *)
Definition compared (opts : Opts) (z : list Entry) : list Entry :=
  filter (fun e => negb (skipped opts (snd e))) z.

(** The answer of the server to the [k]-th query, sent for [rdata] at
    [name]. *)
Definition answer_for (env : Env) (opts : Opts) (k : nat) (name : Name) (rdata : Rdata)
  : QueryResult :=
  query env k (str_opt (nameserver opts)) name (rdtype rdata) (rdclass rdata).

(** The verdicts on a list of compared records when [k] queries were sent
    before: the [i]-th record is judged on the answer to query [k + i]. *)
Definition verdicts_from (env : Env) (opts : Opts) (k : nat) (recs : list Entry)
  : list bool :=
  map (fun ke =>
         expected_verdict (snd (snd ke))
           (answer_for env opts (fst ke) (fst (fst (snd ke))) (snd (snd ke))))
    (combine (seq k (List.length recs)) recs).

Definition expected_verdicts (env : Env) (opts : Opts) (z : list Entry) : list bool :=
  verdicts_from env opts 0 (compared opts z).

(** One character per verdict, each flushed at once. *)
Definition progress (vs : list bool) : list Event :=
  flat_map (fun v => [Write Stdout (if v : bool then "." else "X"); Flush Stdout]) vs.

Definition count_of (b : bool) (vs : list bool) : Z :=
  Z.of_nat (count_occ bool_dec vs b).

(** The lines after the loop. *)
Definition summary (hint : bool) (m mm : Z) : list Event :=
  [ Write Stdout ("done" ++ nl);
    Write Stdout (nl ++ "Results:" ++ nl);
    Write Stdout ("Matches:      " ++ str_int m ++ nl);
    Write Stdout ("Mis-matches:  " ++ str_int mm ++ nl) ]
  ++ (if hint
      then [Write Stdout
              (" (re-run with --verbose to see details of the mis-matches )" ++ nl)]
      else []).

(** The block that verbose mode prints for one record, up to and without
    the [Got] line. *)
Definition block_head (opts : Opts) (name : Name) (rdata : Rdata) (m : bool)
  : list Event :=
  [ Write Stdout ("----" ++ nl);
    Write Stdout
      (banner (if m then "[Match]" else "[MIS-MATCH]") opts name rdata ++ nl);
    Write Stdout ("Expected:  " ++ rdata_to_text rdata ++ nl) ].

Definition got_line (shown : string) : Event :=
  Write Stdout ("Got     :  " ++ shown ++ nl).

(** *** Stores that the lemmas name *)

(** The store with more output. *)
Definition with_out (evs : list Event) (st : State) : State :=
  mkState (matches st) (mismatches st) (match_ st) (result st) (rd st) (issued st)
    (out st ++ evs).

(** The store after the answer loop: [match] is set when some answer
    equals the expected rdata, [result] and [rd] hold the last answer. *)
Definition after_answers (rdata : Rdata) (ans : list Rdata) (st : State) : State :=
  mkState (matches st) (mismatches st)
    (if existsb (fun x => rdata_eq x rdata) ans then Some true else match_ st)
    (last (map (fun x => Some (VRdata x)) ans) (result st))
    (last (map Some ans) (rd st))
    (issued st) (out st).

(** The store after lines 82 to 92, for the outcome [qr] of the query. *)
Definition after_try (rdata : Rdata) (qr : QueryResult) (st : State) : State :=
  mkState (matches st) (mismatches st)
    (Some (expected_verdict rdata qr))
    (match qr with
     | Answer _ rds => last (map (fun x => Some (VRdata x)) rds) (Some (VStr ""))
     | Raises e => Some (VClass e)
     end)
    (match qr with
     | Answer _ rds => last (map Some rds) (rd st)
     | Raises _ => rd st
     end)
    (S (issued st)) (out st).

(** The store after lines 105 to 114 when [match] is [m]. *)
Definition counted (quiet m : bool) (st : State) : State :=
  mkState (if m then matches st + 1 else matches st)
    (if m then mismatches st else mismatches st + 1)
    (match_ st) (result st) (rd st) (issued st)
    (out st ++ if quiet then progress [m] else []).

(** *** Reference definitions for whole runs *)

(** What the [try] statement leaves in [rd]: the last answer, or what was
    there before when the query raised or the answer held nothing. *)
Definition rd_after (qr : QueryResult) (old : option Rdata) : option Rdata :=
  match qr with
  | Answer _ rds => last (map Some rds) old
  | Raises _ => old
  end.

(** No record is compared, or the query for the first compared record
    returned at least one rdata. *)
Definition first_answered (env : Env) (opts : Opts) (z : list Entry) : bool :=
  match compared opts z with
  | [] => true
  | e :: _ =>
      match answer_for env opts 0 (fst (fst e)) (snd e) with
      | Answer _ (_ :: _) => true
      | _ => false
      end
  end.

(** The [Got] line when [rd] is bound; what is out of it when it is not. *)
Definition got_event (cur : option Rdata) : Event :=
  match cur with
  | Some r => got_line (rdata_to_text r)
  | None => Write Stdout "Got     : "
  end.

(** The blocks of verbose mode for a list of compared records, when [k]
    queries were sent before and [rd] holds [old]. *)
Fixpoint verbose_blocks (env : Env) (opts : Opts) (k : nat) (old : option Rdata)
  (recs : list Entry) : list Event :=
  match recs with
  | [] => []
  | e :: rest =>
      let qr := answer_for env opts k (fst (fst e)) (snd e) in
      let cur := rd_after qr old in
      block_head opts (fst (fst e)) (snd e) (expected_verdict (snd e) qr)
        ++ [got_event cur]
        ++ verbose_blocks env opts (S k) cur rest
  end.

(** The run in closed form, case by case: no dnspython; a required option
    missing; a zone file that does not load; verbose mode, with the first
    compared record answered or not; and the mode without [--verbose]. *)
Definition run_shape (env : Env) (opts : Opts) : Process :=
  if negb (dnspython_installed env) then
    mkProcess
      [ Write Stdout ("Please install dnspython:" ++ nl);
        Write Stdout ("$ sudo easy_install dnspython" ++ nl) ]
      255 0
  else if missing_required opts then
    mkProcess
      [Write Stdout ("Error: required arguments: --zone, --file, --server" ++ nl)]
      255 0
  else
    match from_file env (str_opt (zonefile opts)) (str_opt (zone opts)) with
    | inl e => mkProcess [Traceback e] 1 0
    | inr z =>
        let recs := compared opts z in
        let vs := expected_verdicts env opts z in
        let m := count_of true vs in
        let mm := count_of false vs in
        if verbose opts then
          if first_answered env opts z then
            mkProcess (verbose_blocks env opts 0 None recs ++ summary false m mm)
              0 (List.length recs)
          else
            mkProcess
              (verbose_blocks env opts 0 None (firstn 1 recs)
                 ++ [Traceback (NameError "rd")])
              1 1
        else
          mkProcess (progress vs ++ summary (0 <? mm) m mm) 0 (List.length recs)
    end.

(** A zone entry and the outcome of a query, without their TTL. *)
Definition entry_key (e : Entry) : Name * Rdata := (fst (fst e), snd e).

Definition without_ttl (qr : QueryResult) : list Rdata + DNSException :=
  match qr with
  | Answer _ rds => inl rds
  | Raises e => inr e
  end.

(** A flush, or the write of one progress character. *)
Definition is_progress (ev : Event) : bool :=
  match ev with
  | Flush _ => true
  | Write _ s => String.eqb s "." || String.eqb s "X"
  | Traceback _ => false
  end.

(** The hint of line 122. *)
Definition hint_line : Event :=
  Write Stdout (" (re-run with --verbose to see details of the mis-matches )" ++ nl).

End Script.

(** ** A small dnspython for concrete runs

    Names and payloads are their text; payloads are compared as text. *)

Module Sample.

#[local] Instance text_dns : DnsPython := {|
  Name := string;
  Payload := string;
  name_to_text := fun n => n;
  payload_cmp := fun _ a b =>
    match String.compare a b with
    | Eq => 0
    | Lt => -1
    | Gt => 1
    end;
  payload_to_text := fun _ p => p
|}.

(** An [IN A] rdata. *)
Definition A (address : string) : Rdata := mkRdata 1 1 address.

Definition opts_of (v : bool) : Opts :=
  mkOpts (Some "example.com") (Some "example.com.zone") (Some "10.1.1.1") v false false.

Definition no_server : Opts :=
  mkOpts (Some "example.com") (Some "example.com.zone") None false false false.

Definition www : Entry := ("www.example.com.", 3600, A "192.0.2.1").
Definition mail : Entry := ("mail.example.com.", 3600, A "192.0.2.25").
Definition apex_soa : Entry :=
  ("example.com.", 3600, mkRdata 1 SOA "ns1.example.com. admin.example.com. 1 2 3 4 5").
Definition apex_ns : Entry := ("example.com.", 3600, mkRdata 1 NS "ns1.example.com.").

(** A zone that [dns.zone.from_file] accepts has an SOA and an NS record at
    its origin; this is the smallest one used below. *)
Definition small_zone : list Entry := [apex_soa; apex_ns; www].

(** A machine with dnspython, a zone file that loads as [z], and a server
    that answers the [k]-th query with [server k]. *)
Definition env_of (z : list Entry) (server : nat -> QueryResult) : Env :=
  mkEnv true (fun _ _ => inr z) (fun k _ _ _ _ => server k).

(** Every query times out. *)
Definition silent : nat -> QueryResult := fun _ => Raises Timeout.

(** The first query is answered with three addresses, the second of which
    is the one of [www]; every later query times out. *)
Definition first_only : nat -> QueryResult :=
  fun k =>
    match k with
    | O => Answer 300 [A "192.0.2.7"; A "192.0.2.1"; A "192.0.2.9"]
    | _ => Raises Timeout
    end.

End Sample.

(** ** Properties *)

Section Properties.

Context {dnspython : DnsPython}.

Local Open Scope py_scope.

(** *** Lists *)

Lemma last_default_irrelevant {A} (l : list A) (d d' : A) :
  l <> [] -> last l d = last l d'.
Proof.
  induction l as [|a l IH]; intros Hne; [congruence|].
  destruct l as [|b l]; [reflexivity|].
  cbn [last] in *. apply IH. discriminate.
Qed.

Lemma last_cons_shift {A} (x : A) (l : list A) (d : A) :
  last (x :: l) d = last l x.
Proof.
  destruct l as [|b l]; [reflexivity|].
  change (last (x :: b :: l) d) with (last (b :: l) d).
  apply last_default_irrelevant. discriminate.
Qed.

Lemma last_map_nonempty {A B} (f : A -> B) (l : list A) (d : A) (d' : B) :
  l <> [] -> last (map f l) d' = f (last l d).
Proof.
  induction l as [|a l IH]; intros Hne; [congruence|].
  destruct l as [|b l]; [reflexivity|].
  change (last (map f (a :: b :: l)) d') with (last (map f (b :: l)) d').
  change (last (a :: b :: l) d) with (last (b :: l) d).
  apply IH. discriminate.
Qed.

(** *** Equality of rdatas *)

Lemma rdata_eq_agree (x rdata : Rdata) :
  rdata_eq x rdata = true <-> agree x rdata.
Proof.
  unfold rdata_eq, agree.
  destruct (Z.eqb_spec (rdclass x) (rdclass rdata)) as [Hc|Hc];
    destruct (Z.eqb_spec (rdtype x) (rdtype rdata)) as [Ht|Ht]; cbn [negb orb];
    try (split; [discriminate|intros (? & ? & ?); congruence]).
  rewrite Z.eqb_eq. tauto.
Qed.

Lemma expected_verdict_iff (rdata : Rdata) (qr : QueryResult) :
  expected_verdict rdata qr = true
  <-> exists ttl rds x, qr = Answer ttl rds /\ In x rds /\ agree x rdata.
Proof.
  destruct qr as [ttl rds|e]; cbn [expected_verdict].
  - rewrite existsb_exists. split.
    + intros (x & Hin & Heq). exists ttl, rds, x.
      rewrite <- rdata_eq_agree. auto.
    + intros (ttl' & rds' & x & Hqr & Hin & Hag). injection Hqr as -> ->.
      exists x. rewrite rdata_eq_agree. auto.
  - split; [discriminate|]. intros (? & ? & ? & Hqr & _). discriminate.
Qed.

(** *** The answer loop and the [try] statement *)

Lemma answer_loop_spec (rdata : Rdata) (ans : list Rdata) :
  forall st, answer_loop rdata ans st = Normal tt (after_answers rdata ans st).
Proof.
  induction ans as [|x ans IH]; intros st.
  - destruct st; reflexivity.
  - unfold answer_loop in *. cbn [for_each]. unfold bind at 1.
    unfold bind at 1. cbn [modify].
    unfold bind at 1. cbn [modify].
    destruct (rdata_eq x rdata) eqn:E; cbn [modify ret];
      rewrite IH; unfold after_answers; cbn [existsb map];
      rewrite E, !last_cons_shift; cbn; try reflexivity.
    destruct (existsb _ ans); reflexivity.
Qed.


Lemma try_query_spec (env : Env) (opts : Opts) (name : Name) (rdata : Rdata) (st : State) :
  try_query env opts name rdata st
  = Normal tt (after_try rdata (answer_for env opts (issued st) name rdata) st).
Proof.
  unfold try_query, answer_for, bind, modify, r_query, after_try.
  cbn [issued set_result set_match sent].
  destruct (query env (issued st) _ name _ _) as [ttl rds|e]; cbn [comparator].
  - rewrite answer_loop_spec. unfold after_answers. cbn.
    destruct (existsb _ rds); reflexivity.
  - reflexivity.
Qed.

Lemma count_block_spec (opts : Opts) (st : State) (m : bool) :
  match_ st = Some m ->
  count_block opts st = Normal tt (counted (negb (verbose opts)) m st).
Proof.
  intros Hm. unfold count_block, bind, load. rewrite Hm.
  destruct m, (verbose opts); cbn [negb];
    unfold bind, emit, modify, ret, counted, set_matches, set_mismatches, emitted, progress;
    cbn; rewrite <- ?app_assoc, ?app_nil_r; reflexivity.
Qed.

Lemma verbose_block_spec (opts : Opts) (name : Name) (rdata : Rdata) (st : State) (m : bool) :
  match_ st = Some m ->
  verbose_block opts name rdata st
  = match rd st with
    | Some r =>
        Normal tt
          (with_out (block_head opts name rdata m ++ [got_line (rdata_to_text r)]) st)
    | None =>
        Abrupt (Uncaught (NameError "rd"))
          (with_out (block_head opts name rdata m ++ [Write Stdout "Got     : "]) st)
    end.
Proof.
  intros Hm. unfold verbose_block, bind at 1, load at 1. rewrite Hm.
  destruct st as [ms mms mt res r k o]. cbn in Hm. subst mt.
  destruct r as [r|]; destruct m;
    unfold print, print_items, bind, ret, emit, modify, load, emitted, with_out;
    cbn [matches mismatches match_ result rd issued out];
    rewrite <- !app_assoc; reflexivity.
Qed.


(** *** One record *)

Lemma compare_record_quiet (env : Env) (opts : Opts) (name : Name) (rdata : Rdata) (st : State) :
  verbose opts = false ->
  let qr := answer_for env opts (issued st) name rdata in
  compare_record env opts name rdata st
  = Normal tt (counted true (expected_verdict rdata qr) (after_try rdata qr st)).
Proof.
  intros Hv qr. unfold compare_record, bind. rewrite try_query_spec, Hv.
  fold qr. unfold ret.
  rewrite (count_block_spec opts _ (expected_verdict rdata qr)) by reflexivity.
  rewrite Hv. reflexivity.
Qed.

Lemma compare_record_verbose (env : Env) (opts : Opts) (name : Name) (rdata : Rdata) (st : State) :
  verbose opts = true ->
  let qr := answer_for env opts (issued st) name rdata in
  let m := expected_verdict rdata qr in
  compare_record env opts name rdata st
  = match rd (after_try rdata qr st) with
    | Some r =>
        Normal tt
          (counted false m
             (with_out (block_head opts name rdata m ++ [got_line (rdata_to_text r)])
                (after_try rdata qr st)))
    | None =>
        Abrupt (Uncaught (NameError "rd"))
          (with_out (block_head opts name rdata m ++ [Write Stdout "Got     : "])
             (after_try rdata qr st))
    end.
Proof.
  intros Hv qr m. unfold compare_record, bind. rewrite try_query_spec, Hv.
  fold qr. rewrite (verbose_block_spec opts name rdata _ m) by reflexivity.
  destruct (rd (after_try rdata qr st)) as [r|]; [|reflexivity].
  rewrite (count_block_spec opts _ m) by reflexivity.
  rewrite Hv. reflexivity.
Qed.

(** *** The loop *)

(** Skipped records leave no trace: the loop over the zone is the loop
    over its compared records. *)
Lemma for_each_compared (env : Env) (opts : Opts) (z : list Entry) :
  forall st,
    for_each (loop_body env opts) z st
    = for_each (fun e => compare_record env opts (fst (fst e)) (snd e))
        (compared opts z) st.
Proof.
  induction z as [|[[name ttl] rdata] z IH]; intros st; [reflexivity|].
  cbn [for_each compared filter snd]. unfold bind at 1, loop_body at 1.
  destruct (skipped opts rdata); cbn [negb].
  - unfold ret. apply IH.
  - cbn [for_each fst snd]. unfold bind.
    destruct (compare_record env opts name rdata st); [apply IH|reflexivity].
Qed.

Lemma verdicts_from_cons (env : Env) (opts : Opts) (k : nat) (e : Entry) (recs : list Entry) :
  verdicts_from env opts k (e :: recs)
  = expected_verdict (snd e) (answer_for env opts k (fst (fst e)) (snd e))
      :: verdicts_from env opts (S k) recs.
Proof. reflexivity. Qed.

Lemma verdicts_from_length (env : Env) (opts : Opts) (recs : list Entry) :
  forall k, List.length (verdicts_from env opts k recs) = List.length recs.
Proof.
  intros k. unfold verdicts_from.
  rewrite length_map, length_combine, length_seq. apply Nat.min_id.
Qed.

Lemma count_of_cons (b v : bool) (vs : list bool) :
  count_of b (v :: vs) = (if Bool.eqb v b then 1 else 0) + count_of b vs.
Proof.
  unfold count_of. cbn [count_occ].
  destruct (bool_dec v b) as [->|Hne].
  - rewrite eqb_reflx. lia.
  - destruct v, b; try congruence; cbn; lia.
Qed.

Lemma count_of_total (vs : list bool) :
  count_of true vs + count_of false vs = Z.of_nat (List.length vs).
Proof.
  induction vs as [|v vs IH]; [reflexivity|].
  rewrite !count_of_cons. cbn [List.length]. rewrite Nat2Z.inj_succ.
  destruct v; cbn [Bool.eqb]; lia.
Qed.

(** Without [--verbose] the loop always runs to its end. *)
Lemma quiet_loop (env : Env) (opts : Opts) (recs : list Entry) :
  verbose opts = false ->
  forall st,
    let vs := verdicts_from env opts (issued st) recs in
    exists st',
      for_each (fun e => compare_record env opts (fst (fst e)) (snd e)) recs st
      = Normal tt st' /\
      matches st' = matches st + count_of true vs /\
      mismatches st' = mismatches st + count_of false vs /\
      issued st' = (issued st + List.length recs)%nat /\
      out st' = out st ++ progress vs.
Proof.
  intros Hv. induction recs as [|e recs IH]; intros st vs.
  - exists st. subst vs. cbn. rewrite app_nil_r, Nat.add_0_r.
    repeat split; unfold count_of; cbn; lia.
  - cbn [for_each]. unfold bind. rewrite compare_record_quiet by exact Hv.
    set (qr := answer_for env opts (issued st) (fst (fst e)) (snd e)).
    set (v := expected_verdict (snd e) qr).
    destruct (IH (counted true v (after_try (snd e) qr st))) as (st' & Hrun & Hm & Hmm & Hk & Ho).
    exists st'. split; [exact Hrun|].
    subst vs. rewrite verdicts_from_cons. fold qr. fold v.
    cbn [issued counted after_try matches mismatches out] in Hm, Hmm, Hk, Ho.
    rewrite !count_of_cons. cbn [List.length progress flat_map].
    rewrite Hm, Hmm, Hk, Ho. unfold progress. cbn [flat_map].
    rewrite <- app_assoc.
    repeat split; destruct v; cbn [Bool.eqb app]; try lia; reflexivity.
Qed.


Lemma verdicts_from_nth (env : Env) (opts : Opts) (recs : list Entry) :
  forall k i e,
    nth_error recs i = Some e ->
    nth_error (verdicts_from env opts k recs) i
    = Some (expected_verdict (snd e) (answer_for env opts (k + i) (fst (fst e)) (snd e))).
Proof.
  induction recs as [|r recs IH]; intros k i e Hi.
  - destruct i; discriminate.
  - rewrite verdicts_from_cons. destruct i as [|i]; cbn [nth_error] in *.
    + injection Hi as ->. rewrite Nat.add_0_r. reflexivity.
    + rewrite (IH (S k) i e Hi). rewrite Nat.add_succ_r. reflexivity.
Qed.

(** *** The script around the loop *)

Lemma missing_required_iff (opts : Opts) :
  missing_required opts = true
  <-> zone opts = None \/ zonefile opts = None \/ nameserver opts = None.
Proof.
  unfold missing_required.
  destruct (zone opts), (zonefile opts), (nameserver opts); cbn;
    intuition congruence.
Qed.

Lemma epilogue_spec (opts : Opts) (st : State) :
  epilogue opts st
  = Normal tt
      (with_out
         (summary (negb (verbose opts) && (0 <? mismatches st))
            (matches st) (mismatches st))
         st).
Proof.
  unfold epilogue, print, print_items, bind, ret, gets, emit, modify, emitted, with_out, summary.
  cbn [matches mismatches match_ result rd issued out].
  destruct (negb (verbose opts) && (0 <? mismatches st));
    cbn [matches mismatches match_ result rd issued out];
    rewrite <- ?app_assoc; reflexivity.
Qed.

(** With dnspython, all three required options and a zone file that loads,
    the script is the loop and the epilogue. *)
Lemma script_after_setup (env : Env) (opts : Opts) (z : list Entry) :
  dnspython_installed env = true ->
  missing_required opts = false ->
  from_file env (str_opt (zonefile opts)) (str_opt (zone opts)) = inr z ->
  script env opts initial
  = bind
      (for_each (fun e => compare_record env opts (fst (fst e)) (snd e)) (compared opts z))
      (fun _ => epilogue opts) initial.
Proof.
  intros Hi Hm Hz. unfold script, import_guard, after_options, load_zone.
  rewrite Hi, Hm, Hz.
  unfold bind at 1. unfold ret at 1. unfold bind at 1. unfold ret at 1.
  unfold bind at 1. unfold ret at 1. unfold bind at 1. unfold modify at 1.
  unfold bind at 1. unfold modify at 1.
  change (set_mismatches 0 (set_matches 0 initial)) with initial.
  unfold bind. rewrite for_each_compared. reflexivity.
Qed.


(** The whole run without [--verbose], once the setup has succeeded. *)
Lemma quiet_script (env : Env) (opts : Opts) (z : list Entry) :
  dnspython_installed env = true ->
  missing_required opts = false ->
  from_file env (str_opt (zonefile opts)) (str_opt (zone opts)) = inr z ->
  verbose opts = false ->
  let vs := expected_verdicts env opts z in
  exists st',
    script env opts initial = Normal tt st' /\
    matches st' = count_of true vs /\
    mismatches st' = count_of false vs /\
    issued st' = List.length (compared opts z) /\
    out st'
    = progress vs
        ++ summary (0 <? count_of false vs) (count_of true vs) (count_of false vs).
Proof.
  intros Hi Hm Hz Hv vs.
  rewrite (script_after_setup env opts z Hi Hm Hz). unfold bind.
  destruct (quiet_loop env opts (compared opts z) Hv initial)
    as (st1 & Hrun & Hms & Hmms & Hk & Ho).
  rewrite Hrun, epilogue_spec. eexists. split; [reflexivity|].
  cbn [initial matches mismatches issued out] in Hms, Hmms, Hk, Ho.
  fold (expected_verdicts env opts z) in Hms, Hmms, Ho. fold vs in Hms, Hmms, Ho.
  unfold with_out. cbn [matches mismatches issued out].
  rewrite Hms, Hmms, Hk, Ho, Hv. cbn [negb andb app].
  rewrite !Z.add_0_l. repeat split; reflexivity.
Qed.

(** C7. Without [--verbose], when the setup succeeds, the output is one
    character for every record that is not skipped, in zone order, [.] when
    the record matched and [X] when it did not, each followed at once by a
    flush; then [done], the summary with the two counts, and the hint to
    re-run with [--verbose] exactly when some record did not match. *)
Theorem quiet_run_output (env : Env) (opts : Opts) (z : list Entry) :
  dnspython_installed env = true ->
  missing_required opts = false ->
  from_file env (str_opt (zonefile opts)) (str_opt (zone opts)) = inr z ->
  verbose opts = false ->
  let vs := expected_verdicts env opts z in
  let m := count_of true vs in
  let mm := count_of false vs in
  trace (run env opts)
  = progress vs
      ++ [ Write Stdout ("done" ++ nl);
           Write Stdout (nl ++ "Results:" ++ nl);
           Write Stdout ("Matches:      " ++ str_int m ++ nl);
           Write Stdout ("Mis-matches:  " ++ str_int mm ++ nl) ]
      ++ (if 0 <? mm
          then [Write Stdout
                  (" (re-run with --verbose to see details of the mis-matches )" ++ nl)]
          else []) /\
  List.length vs = List.length (compared opts z) /\
  (forall i name ttl rdata,
      nth_error (compared opts z) i = Some (name, ttl, rdata) ->
      nth_error vs i = Some (expected_verdict rdata (answer_for env opts i name rdata))) /\
  (forall rdata qr,
      expected_verdict rdata qr = true
      <-> exists ttl rds x, qr = Answer ttl rds /\ In x rds /\ agree x rdata).
Proof.
  intros Hi Hm Hz Hv vs m mm.
  destruct (quiet_script env opts z Hi Hm Hz Hv) as (st' & Hrun & _ & _ & _ & Ho).
  unfold run. rewrite Hrun. cbn [trace]. rewrite Ho.
  split; [reflexivity|]. split; [apply verdicts_from_length|]. split.
  - intros i name ttl rdata Hnth.
    apply (verdicts_from_nth env opts (compared opts z) 0 i _ Hnth).
  - intros rdata qr. apply expected_verdict_iff.
Qed.


(** *** Claims on one record *)

(** C1. When the query succeeds, [match] is true after the [try] statement
    if and only if some answer has the type and the class of the expected
    rdata and a payload that the canonical comparison of the type finds
    equal; otherwise it is false.  In particular, when the canonical
    comparison finds the expected payload equal to itself and the server
    returns the expected rdata, [match] is true. *)
Theorem match_iff_some_answer_agrees
  (env : Env) (opts : Opts) (name : Name) (rdata : Rdata) (st : State)
  (ttl : Z) (rds : list Rdata) :
  answer_for env opts (issued st) name rdata = Answer ttl rds ->
  exists st',
    try_query env opts name rdata st = Normal tt st' /\
    (match_ st' = Some true \/ match_ st' = Some false) /\
    (match_ st' = Some true
     <-> exists x,
           In x rds /\
           rdtype x = rdtype rdata /\
           rdclass x = rdclass rdata /\
           payload_cmp (rdtype x) (payload x) (payload rdata) = 0) /\
    (payload_cmp (rdtype rdata) (payload rdata) (payload rdata) = 0 ->
     In rdata rds -> match_ st' = Some true).
Proof.
  intros Hq. rewrite try_query_spec, Hq. eexists. split; [reflexivity|].
  cbn [after_try match_ expected_verdict].
  assert (Hiff : existsb (fun x => rdata_eq x rdata) rds = true
                 <-> exists x, In x rds /\ agree x rdata).
  { rewrite existsb_exists. split; intros (x & Hin & H); exists x;
      (split; [exact Hin|]); apply rdata_eq_agree; exact H. }
  split; [destruct (existsb _ rds); auto|]. split.
  - split.
    + intros H. apply Hiff. congruence.
    + intros H. apply Hiff in H. rewrite H. reflexivity.
  - intros Hrefl Hin. f_equal. apply Hiff. exists rdata.
    split; [exact Hin|]. unfold agree. auto.
Qed.

(** C9. When the query succeeds with at least one answer, [result] and [rd]
    hold the last answer after the record is done, whichever answer matched,
    and in verbose mode the [Got] line shows that last answer: also under
    the [Match] banner that an earlier answer earned. *)
Theorem last_answer_is_reported
  (env : Env) (opts : Opts) (name : Name) (rdata : Rdata) (st : State)
  (ttl : Z) (rds : list Rdata) :
  answer_for env opts (issued st) name rdata = Answer ttl rds ->
  rds <> [] ->
  let shown := last rds rdata in
  exists st' m,
    compare_record env opts name rdata st = Normal tt st' /\
    result st' = Some (VRdata shown) /\
    rd st' = Some shown /\
    (m = true <-> exists x, In x rds /\ agree x rdata) /\
    (verbose opts = true ->
     out st'
     = out st ++ block_head opts name rdata m ++ [got_line (rdata_to_text shown)]).
Proof.
  intros Hq Hne shown.
  assert (Hrd : forall s, rd (after_try rdata (Answer ttl rds) s) = Some shown).
  { intros s. cbn [after_try rd]. apply last_map_nonempty, Hne. }
  assert (Hres : forall s, result (after_try rdata (Answer ttl rds) s) = Some (VRdata shown)).
  { intros s. cbn [after_try result].
    apply (last_map_nonempty (fun x => Some (VRdata x)) rds rdata), Hne. }
  assert (Hm : expected_verdict rdata (Answer ttl rds) = true
               <-> exists x, In x rds /\ agree x rdata).
  { rewrite expected_verdict_iff. split.
    - intros (t & l & x & Heq & Hin & Hag). injection Heq as -> ->. eauto.
    - intros (x & Hin & Hag). eauto 6. }
  destruct (verbose opts) eqn:Hv.
  - rewrite compare_record_verbose by exact Hv. rewrite Hq, Hrd.
    eexists. exists (expected_verdict rdata (Answer ttl rds)).
    split; [reflexivity|]. cbn [counted with_out result rd out].
    rewrite Hrd, Hres, app_nil_r. repeat split; try apply Hm.
  - rewrite compare_record_quiet by exact Hv. rewrite Hq.
    eexists. exists (expected_verdict rdata (Answer ttl rds)).
    split; [reflexivity|]. cbn [counted result rd].
    rewrite Hrd, Hres. repeat split; try apply Hm. discriminate.
Qed.

(** C3. The TTL of the zone entry and the TTL of the answer are not looked
    at: whatever the two TTLs are, a record that is not skipped and whose
    query returns an rdata of the same type and class with a canonically
    equal payload is counted as a match, never as a mismatch; and the loop
    body does the same for every TTL of the entry and the [try] statement
    for every TTL of the answer. *)
Theorem ttl_is_not_compared
  (env : Env) (opts : Opts) (name : Name) (ttl : Z) (rdata : Rdata) (st : State)
  (ttl' : Z) (rds : list Rdata) (x : Rdata) :
  skipped opts rdata = false ->
  answer_for env opts (issued st) name rdata = Answer ttl' rds ->
  In x rds ->
  agree x rdata ->
  (exists st',
      loop_body env opts (name, ttl, rdata) st = Normal tt st' /\
      match_ st' = Some true /\
      matches st' = matches st + 1 /\
      mismatches st' = mismatches st) /\
  (forall t, loop_body env opts (name, t, rdata) st = loop_body env opts (name, ttl, rdata) st) /\
  (forall t s, comparator rdata (Answer t rds) s = comparator rdata (Answer ttl' rds) s).
Proof.
  intros Hs Hq Hin Hag.
  assert (Hm : expected_verdict rdata (Answer ttl' rds) = true).
  { apply expected_verdict_iff. eauto 6. }
  split; [|split; reflexivity].
  unfold loop_body. rewrite Hs.
  destruct (verbose opts) eqn:Hv.
  - rewrite compare_record_verbose by exact Hv. rewrite Hq, Hm.
    assert (Hrd : rd (after_try rdata (Answer ttl' rds) st) = Some (last rds rdata)).
    { cbn [after_try rd]. apply last_map_nonempty. intros ->. destruct Hin. }
    rewrite Hrd. eexists. split; [reflexivity|].
    cbn [counted with_out after_try match_ matches mismatches expected_verdict].
    cbn [expected_verdict] in Hm. rewrite Hm. auto.
  - rewrite compare_record_quiet by exact Hv. rewrite Hq, Hm.
    eexists. split; [reflexivity|].
    cbn [counted after_try match_ matches mismatches expected_verdict].
    cbn [expected_verdict] in Hm. rewrite Hm. auto.
Qed.

Lemma compare_record_sends_one_query
  (env : Env) (opts : Opts) (name : Name) (rdata : Rdata) (st : State) :
  issued (final_store (compare_record env opts name rdata st)) = S (issued st).
Proof.
  destruct (verbose opts) eqn:Hv.
  - rewrite compare_record_verbose by exact Hv.
    destruct (rd (after_try _ _ st)); reflexivity.
  - rewrite compare_record_quiet by exact Hv. reflexivity.
Qed.

(** C4. The loop body skips a record, sending no query and leaving the
    store and the output as they are, exactly when its type is SOA and
    [--soa] is off or its type is NS and [--ns] is off; every other
    record, SOA and NS with their option on among them, goes through the
    same comparison, which sends one query. *)
Theorem skip_soa_and_ns_unless_asked
  (env : Env) (opts : Opts) (name : Name) (ttl : Z) (rdata : Rdata) (st : State) :
  let skip :=
    (rdtype rdata = SOA /\ compare_soa opts = false) \/
    (rdtype rdata = NS /\ compare_ns opts = false) in
  (skipped opts rdata = true <-> skip) /\
  (skip -> loop_body env opts (name, ttl, rdata) st = Normal tt st) /\
  (~ skip ->
   loop_body env opts (name, ttl, rdata) st = compare_record env opts name rdata st /\
   issued (final_store (loop_body env opts (name, ttl, rdata) st)) = S (issued st)).
Proof.
  intros skip.
  assert (Hiff : skipped opts rdata = true <-> skip).
  { unfold skipped, skip.
    destruct (Z.eqb_spec (rdtype rdata) SOA) as [Hs|Hs];
      destruct (Z.eqb_spec (rdtype rdata) NS) as [Hn|Hn];
      destruct (compare_soa opts), (compare_ns opts); cbn [negb andb];
      intuition congruence. }
  split; [exact Hiff|]. split.
  - intros H. apply Hiff in H. unfold loop_body. rewrite H. reflexivity.
  - intros H. assert (Hs : skipped opts rdata = false).
    { destruct (skipped opts rdata); [|reflexivity]. exfalso. apply H, Hiff. reflexivity. }
    unfold loop_body. rewrite Hs. split; [reflexivity|].
    apply compare_record_sends_one_query.
Qed.


(** *** Claims on the whole run *)

(** In verbose mode a failed query leaves [rd] as it was. *)
Lemma failed_query_verbose
  (env : Env) (opts : Opts) (name : Name) (rdata : Rdata) (st : State) (e : DNSException) :
  verbose opts = true ->
  answer_for env opts (issued st) name rdata = Raises e ->
  compare_record env opts name rdata st
  = match rd st with
    | Some old =>
        Normal tt
          (counted false false
             (with_out (block_head opts name rdata false ++ [got_line (rdata_to_text old)])
                (after_try rdata (Raises e) st)))
    | None =>
        Abrupt (Uncaught (NameError "rd"))
          (with_out (block_head opts name rdata false ++ [Write Stdout "Got     : "])
             (after_try rdata (Raises e) st))
    end.
Proof.
  intros Hv Hq. rewrite compare_record_verbose by exact Hv. rewrite Hq. reflexivity.
Qed.

(** C10. In verbose mode, when the query raises a DNS exception, the [Got]
    line is made from [rd], the variable of the answer loop, and not from
    the exception that was caught (which is only stored in [result]).  So:
    - when [rd] was never bound, the record ends in [NameError] for [rd],
      after the banner, the [Expected] line and the first item of the [Got]
      line;
    - when [rd] is bound, the [Got] line shows it, and it is the last answer
      of an earlier record: a successful query with answers binds [rd] to
      its last answer, and a failed one leaves it alone;
    - when the query of the first record that is not skipped fails, the
      whole run ends there with the traceback and exit status 1. *)
Theorem got_line_prints_loop_variable (env : Env) (opts : Opts) :
  verbose opts = true ->
  (forall name rdata st e,
      rd st = None ->
      answer_for env opts (issued st) name rdata = Raises e ->
      exists st',
        compare_record env opts name rdata st = Abrupt (Uncaught (NameError "rd")) st' /\
        result st' = Some (VClass e) /\
        out st'
        = out st ++ block_head opts name rdata false ++ [Write Stdout "Got     : "]) /\
  (forall name rdata st e old,
      rd st = Some old ->
      answer_for env opts (issued st) name rdata = Raises e ->
      exists st',
        compare_record env opts name rdata st = Normal tt st' /\
        result st' = Some (VClass e) /\
        rd st' = Some old /\
        mismatches st' = mismatches st + 1 /\
        out st'
        = out st ++ block_head opts name rdata false ++ [got_line (rdata_to_text old)]) /\
  (forall name rdata st ttl rds,
      answer_for env opts (issued st) name rdata = Answer ttl rds ->
      rds <> [] ->
      exists st',
        compare_record env opts name rdata st = Normal tt st' /\
        rd st' = Some (last rds rdata)) /\
  (forall z name ttl rdata rest e,
      dnspython_installed env = true ->
      missing_required opts = false ->
      from_file env (str_opt (zonefile opts)) (str_opt (zone opts)) = inr z ->
      compared opts z = (name, ttl, rdata) :: rest ->
      answer_for env opts 0 name rdata = Raises e ->
      run env opts
      = mkProcess
          (block_head opts name rdata false
             ++ [Write Stdout "Got     : "; Traceback (NameError "rd")])
          1 1).
Proof.
  intros Hv. split; [|split; [|split]].
  - intros name rdata st e Hrd Hq.
    rewrite (failed_query_verbose env opts name rdata st e Hv Hq), Hrd.
    eexists. split; [reflexivity|]. split; reflexivity.
  - intros name rdata st e old Hrd Hq.
    rewrite (failed_query_verbose env opts name rdata st e Hv Hq), Hrd.
    eexists. split; [reflexivity|]. cbn [counted with_out after_try result rd mismatches out].
    rewrite app_nil_r. auto.
  - intros name rdata st ttl rds Hq Hne.
    rewrite compare_record_verbose by exact Hv. rewrite Hq.
    assert (Hrd : rd (after_try rdata (Answer ttl rds) st) = Some (last rds rdata)).
    { cbn [after_try rd]. apply last_map_nonempty, Hne. }
    rewrite Hrd. eexists. split; [reflexivity|]. exact Hrd.
  - intros z name ttl rdata rest e Hi Hm Hz Hc Hq.
    unfold run. rewrite (script_after_setup env opts z Hi Hm Hz), Hc.
    cbn [for_each fst snd]. unfold bind.
    rewrite (failed_query_verbose env opts name rdata initial e Hv Hq).
    reflexivity.
Qed.

(** A command line that optparse accepts: the invocation is the run on
    the options it returned. *)
Lemma invoke_parsed (env : Env) (opts : Opts) :
  invoke env (Parsed opts) = run env opts.
Proof.
  unfold invoke, run, program, script, parse_args, bind.
  destruct (import_guard env initial); reflexivity.
Qed.

(** C6, as the script has it.  When optparse accepts the command line and
    one of the three required options is missing from the options that it
    returns, the run ends with [sys.exit(-1)], exit status 255, before the
    zone file is read and before any query; nothing goes to standard
    error.  When dnspython can be imported, what is printed is the line
    about the required arguments, on standard output. *)
Theorem missing_argument_exits (env : Env) (opts : Opts) :
  zone opts = None \/ zonefile opts = None \/ nameserver opts = None ->
  let p := invoke env (Parsed opts) in
  status p = 255 /\
  queries p = 0%nat /\
  filter on_stderr (trace p) = [] /\
  (dnspython_installed env = true ->
   trace p
   = [Write Stdout ("Error: required arguments: --zone, --file, --server" ++ nl)]).
Proof.
  intros Hmiss p. apply missing_required_iff in Hmiss.
  subst p. rewrite invoke_parsed.
  unfold run, script, import_guard, after_options. rewrite Hmiss.
  destruct (dnspython_installed env); cbn; auto.
  repeat split; auto. discriminate.
Qed.

(** *** What holds of the loop in each mode *)

(** Without [--verbose] every record that is not skipped is counted once,
    whatever its query did, and the run ends with status 0. *)
Lemma quiet_run_counts_every_record (env : Env) (opts : Opts) (z : list Entry) :
  dnspython_installed env = true ->
  missing_required opts = false ->
  from_file env (str_opt (zonefile opts)) (str_opt (zone opts)) = inr z ->
  verbose opts = false ->
  exists st',
    script env opts initial = Normal tt st' /\
    matches st' + mismatches st' = Z.of_nat (List.length (compared opts z)) /\
    issued st' = List.length (compared opts z) /\
    status (run env opts) = 0.
Proof.
  intros Hi Hm Hz Hv.
  destruct (quiet_script env opts z Hi Hm Hz Hv) as (st' & Hrun & Hms & Hmms & Hk & _).
  exists st'. split; [exact Hrun|]. split; [|split; [exact Hk|]].
  - rewrite Hms, Hmms, count_of_total. unfold expected_verdicts.
    rewrite verdicts_from_length. reflexivity.
  - unfold run. rewrite Hrun. reflexivity.
Qed.

(** A run that reaches the end of the script ends with status 0. *)
Lemma completed_run_status (env : Env) (opts : Opts) (st : State) :
  script env opts initial = Normal tt st -> status (run env opts) = 0.
Proof. intros H. unfold run. rewrite H. reflexivity. Qed.

(** In verbose mode the loop runs to its end from any store in which [rd]
    is bound. *)
Lemma verbose_loop_once_bound (env : Env) (opts : Opts) (recs : list Entry) :
  verbose opts = true ->
  forall st,
    rd st <> None ->
    exists st',
      for_each (fun e => compare_record env opts (fst (fst e)) (snd e)) recs st
      = Normal tt st' /\
      matches st' + mismatches st'
      = matches st + mismatches st + Z.of_nat (List.length recs) /\
      rd st' <> None.
Proof.
  intros Hv. induction recs as [|e recs IH]; intros st Hrd.
  - exists st. cbn. repeat split; [lia|exact Hrd].
  - cbn [for_each]. unfold bind. rewrite compare_record_verbose by exact Hv.
    set (qr := answer_for env opts (issued st) (fst (fst e)) (snd e)).
    assert (Hb : rd (after_try (snd e) qr st) <> None).
    { cbn [after_try rd]. destruct qr as [t rds|x]; [|exact Hrd].
      destruct rds as [|r rds]; [exact Hrd|].
      rewrite (last_map_nonempty Some (r :: rds) r) by discriminate. discriminate. }
    destruct (rd (after_try (snd e) qr st)) as [r|] eqn:Er; [|congruence].
    match goal with |- context [for_each _ recs ?s] => destruct (IH s) as (st' & Hrun & Hc & Hrd') end.
    { cbn [counted with_out rd]. rewrite Er. discriminate. }
    exists st'. split; [exact Hrun|]. split; [|exact Hrd'].
    rewrite Hc. cbn [counted with_out after_try matches mismatches List.length].
    rewrite Nat2Z.inj_succ. destruct (expected_verdict (snd e) qr); lia.
Qed.

End Properties.

(** ** Whole runs *)

Section Whole_runs.

Context {dnspython : DnsPython}.

Local Open Scope py_scope.

(** *** The loop in verbose mode *)

Lemma rd_after_bound (qr : QueryResult) (old : Rdata) :
  rd_after qr (Some old) <> None.
Proof.
  destruct qr as [ttl rds|e]; cbn [rd_after]; [|discriminate].
  destruct rds as [|r rds]; [discriminate|].
  rewrite (last_map_nonempty Some (r :: rds) r) by discriminate. discriminate.
Qed.

Lemma rd_after_unbound (qr : QueryResult) :
  rd_after qr None = None
  <-> match qr with Answer _ (_ :: _) => False | _ => True end.
Proof.
  destruct qr as [ttl rds|e]; cbn [rd_after]; [|tauto].
  destruct rds as [|r rds]; [cbn; tauto|].
  rewrite (last_map_nonempty Some (r :: rds) r) by discriminate.
  split; [discriminate|tauto].
Qed.

Lemma unanswered_is_mismatch (rdata : Rdata) (qr : QueryResult) :
  rd_after qr None = None -> expected_verdict rdata qr = false.
Proof.
  intros H. apply rd_after_unbound in H.
  destruct qr as [ttl [|r rds]|e]; [reflexivity|contradiction|reflexivity].
Qed.

(** One record in verbose mode, in terms of [rd_after]. *)
Lemma compare_record_verbose_step
  (env : Env) (opts : Opts) (name : Name) (rdata : Rdata) (st : State) :
  verbose opts = true ->
  let qr := answer_for env opts (issued st) name rdata in
  let m := expected_verdict rdata qr in
  compare_record env opts name rdata st
  = match rd_after qr (rd st) with
    | Some r =>
        Normal tt
          (counted false m
             (with_out (block_head opts name rdata m ++ [got_event (Some r)])
                (after_try rdata qr st)))
    | None =>
        Abrupt (Uncaught (NameError "rd"))
          (with_out (block_head opts name rdata m ++ [got_event None])
             (after_try rdata qr st))
    end.
Proof.
  intros Hv qr m. rewrite compare_record_verbose by exact Hv. reflexivity.
Qed.

(** In verbose mode the loop runs to its end as soon as the first record
    leaves [rd] bound, and prints one block per record. *)
Lemma verbose_loop_trace (env : Env) (opts : Opts) (recs : list Entry) :
  verbose opts = true ->
  forall st,
    match recs with
    | [] => True
    | e :: _ =>
        rd_after (answer_for env opts (issued st) (fst (fst e)) (snd e)) (rd st) <> None
    end ->
    let vs := verdicts_from env opts (issued st) recs in
    exists st',
      for_each (fun e => compare_record env opts (fst (fst e)) (snd e)) recs st
      = Normal tt st' /\
      matches st' = matches st + count_of true vs /\
      mismatches st' = mismatches st + count_of false vs /\
      issued st' = (issued st + List.length recs)%nat /\
      out st' = out st ++ verbose_blocks env opts (issued st) (rd st) recs.
Proof.
  intros Hv. induction recs as [|e recs IH]; intros st Hfirst vs.
  - exists st. subst vs. cbn. rewrite app_nil_r, Nat.add_0_r.
    repeat split; unfold count_of; cbn; lia.
  - cbn [for_each]. unfold bind. rewrite compare_record_verbose_step by exact Hv.
    set (qr := answer_for env opts (issued st) (fst (fst e)) (snd e)) in *.
    set (v := expected_verdict (snd e) qr).
    destruct (rd_after qr (rd st)) as [r|] eqn:Er; [|congruence].
    set (st1 := counted false v
                  (with_out (block_head opts (fst (fst e)) (snd e) v ++ [got_event (Some r)])
                     (after_try (snd e) qr st))).
    assert (Hrd1 : rd st1 = Some r) by exact Er.
    destruct (IH st1) as (st' & Hrun & Hm & Hmm & Hk & Ho).
    { destruct recs as [|e' recs']; [exact I|]. rewrite Hrd1. apply rd_after_bound. }
    exists st'. split; [exact Hrun|].
    subst vs. rewrite verdicts_from_cons. fold qr. fold v.
    rewrite Hrd1 in Ho.
    cbn [st1 issued counted with_out after_try matches mismatches out] in Hm, Hmm, Hk, Ho.
    rewrite !count_of_cons. cbn [List.length verbose_blocks].
    fold qr. fold v. rewrite Er.
    rewrite Hm, Hmm, Hk, Ho, app_nil_r, <- !app_assoc.
    repeat split; destruct v; cbn [Bool.eqb]; try lia; reflexivity.
Qed.

(** *** The run, case by case *)

Lemma first_answered_iff (env : Env) (opts : Opts) (z : list Entry) :
  first_answered env opts z = true
  <-> match compared opts z with
      | [] => True
      | e :: _ => rd_after (answer_for env opts 0 (fst (fst e)) (snd e)) None <> None
      end.
Proof.
  unfold first_answered. destruct (compared opts z) as [|e recs]; [tauto|].
  rewrite rd_after_unbound.
  destruct (answer_for env opts 0 (fst (fst e)) (snd e)) as [ttl [|r rds]|x];
    intuition discriminate.
Qed.

(** The run is what [run_shape] says. *)
Lemma run_closed_form (env : Env) (opts : Opts) :
  run env opts = run_shape env opts.
Proof.
  unfold run_shape.
  destruct (dnspython_installed env) eqn:Hi; cbn [negb].
  2:{ unfold run, script, import_guard. rewrite Hi. reflexivity. }
  destruct (missing_required opts) eqn:Hm.
  { unfold run, script, import_guard, after_options. rewrite Hi, Hm. reflexivity. }
  destruct (from_file env (str_opt (zonefile opts)) (str_opt (zone opts)))
    as [e|z] eqn:Hz.
  { unfold run, script, import_guard, after_options, load_zone.
    rewrite Hi, Hm, Hz. reflexivity. }
  destruct (verbose opts) eqn:Hv.
  - destruct (first_answered env opts z) eqn:Hf.
    + unfold run. rewrite (script_after_setup env opts z Hi Hm Hz). unfold bind.
      destruct (verbose_loop_trace env opts (compared opts z) Hv initial)
        as (st1 & Hrun & Hms & Hmms & Hk & Ho).
      { apply first_answered_iff in Hf. exact Hf. }
      rewrite Hrun, epilogue_spec. unfold with_out.
      cbn [initial matches mismatches issued out rd] in Hms, Hmms, Hk, Ho.
      cbn [matches mismatches issued out].
      rewrite Hms, Hmms, Hk, Ho, Hv. cbn [negb andb app].
      rewrite !Z.add_0_l. reflexivity.
    + assert (Hne : exists e rest,
                 compared opts z = e :: rest /\
                 rd_after (answer_for env opts 0 (fst (fst e)) (snd e)) None = None).
      { pose proof (first_answered_iff env opts z) as Hiff. rewrite Hf in Hiff.
        destruct (compared opts z) as [|e rest]; [destruct Hiff as [_ H]; discriminate (H I)|].
        exists e, rest. split; [reflexivity|].
        destruct (rd_after _ None) eqn:E; [|reflexivity].
        destruct Hiff as [_ H]. discriminate H. discriminate. }
      destruct Hne as (e & rest & Hc & Hnone).
      unfold run. rewrite (script_after_setup env opts z Hi Hm Hz), Hc.
      cbn [for_each firstn verbose_blocks]. unfold bind.
      rewrite compare_record_verbose_step by exact Hv.
      cbn [initial issued rd]. rewrite Hnone.
      rewrite (unanswered_is_mismatch (snd e) _ Hnone).
      cbn [with_out after_try out issued initial app]. reflexivity.
  - destruct (quiet_script env opts z Hi Hm Hz Hv) as (st' & Hrun & _ & _ & Hk & Ho).
    unfold run. rewrite Hrun, Ho, Hk. reflexivity.
Qed.


(** *** Setup failures *)

(** X1. Without dnspython the script prints how to install it and ends
    with [sys.exit(-1)] before it looks at the options, the zone file or
    the server. *)
Theorem missing_dnspython_exits (env : Env) (opts : Opts) :
  dnspython_installed env = false ->
  run env opts
  = mkProcess
      [ Write Stdout ("Please install dnspython:" ++ nl);
        Write Stdout ("$ sudo easy_install dnspython" ++ nl) ]
      255 0.
Proof.
  intros Hi. rewrite run_closed_form. unfold run_shape. rewrite Hi. reflexivity.
Qed.

(** X2. What [dns.zone.from_file] raises is not caught: the run ends with
    the traceback and status 1, with nothing on standard output and no
    query sent. *)
Theorem unreadable_zone_is_fatal (env : Env) (opts : Opts) (e : Exn) :
  dnspython_installed env = true ->
  missing_required opts = false ->
  from_file env (str_opt (zonefile opts)) (str_opt (zone opts)) = inl e ->
  run env opts = mkProcess [Traceback e] 1 0.
Proof.
  intros Hi Hm Hz. rewrite run_closed_form. unfold run_shape.
  rewrite Hi, Hm, Hz. reflexivity.
Qed.

(** The exit status once optparse has returned the options. *)
Lemma status_after_options (env : Env) (opts : Opts) :
  status (run env opts)
  = if negb (dnspython_installed env) || missing_required opts then 255
    else
      match from_file env (str_opt (zonefile opts)) (str_opt (zone opts)) with
      | inl _ => 1
      | inr z => if verbose opts && negb (first_answered env opts z) then 1 else 0
      end.
Proof.
  rewrite run_closed_form. unfold run_shape.
  destruct (dnspython_installed env); cbn [negb orb]; [|reflexivity].
  destruct (missing_required opts); [reflexivity|].
  destruct (from_file env _ _) as [e|z]; [reflexivity|].
  destruct (verbose opts); cbn [andb]; [|reflexivity].
  destruct (first_answered env opts z); reflexivity.
Qed.

(** X12. The exit status of an invocation in closed form: 255 when
    dnspython is missing; otherwise 2 when optparse refuses the command
    line and 0 when it is asked for help; otherwise, on the options it
    returns, 255 when a required one is missing, 1 when the zone file does
    not load or when verbose mode meets a first compared record whose
    query returns no rdata, and 0 in every other case. *)
Theorem exit_status_of_invocation (env : Env) (cmd : Parse) :
  status (invoke env cmd)
  = if negb (dnspython_installed env) then 255
    else
      match cmd with
      | OptionError _ _ => 2
      | HelpAsked _ => 0
      | Parsed opts =>
          if missing_required opts then 255
          else
            match from_file env (str_opt (zonefile opts)) (str_opt (zone opts)) with
            | inl _ => 1
            | inr z => if verbose opts && negb (first_answered env opts z) then 1 else 0
            end
      end.
Proof.
  destruct cmd as [opts|usage message|help].
  - rewrite invoke_parsed, status_after_options.
    destruct (dnspython_installed env); reflexivity.
  - unfold invoke, program, import_guard.
    destruct (dnspython_installed env); reflexivity.
  - unfold invoke, program, import_guard.
    destruct (dnspython_installed env); reflexivity.
Qed.

(** *** Counting *)

(** X10. In either mode a record that is compared to the end has sent one
    query and is counted once: [matches] grows by one when some answer
    equals the expected rdata, [mismatches] grows by one otherwise. *)
Theorem record_counted_once
  (env : Env) (opts : Opts) (name : Name) (rdata : Rdata) (st st' : State) :
  compare_record env opts name rdata st = Normal tt st' ->
  let v := expected_verdict rdata (answer_for env opts (issued st) name rdata) in
  issued st' = S (issued st) /\
  match_ st' = Some v /\
  matches st' = matches st + (if v then 1 else 0) /\
  mismatches st' = mismatches st + (if v then 0 else 1).
Proof.
  intros Hrun v. destruct (verbose opts) eqn:Hv.
  - rewrite compare_record_verbose in Hrun by exact Hv.
    destruct (rd (after_try _ _ st)); [|discriminate].
    injection Hrun as <-. fold v.
    cbn [counted with_out after_try issued match_ matches mismatches].
    fold v. destruct v; repeat split; lia.
  - rewrite compare_record_quiet in Hrun by exact Hv.
    injection Hrun as <-. fold v.
    cbn [counted after_try issued match_ matches mismatches].
    fold v. destruct v; repeat split; lia.
Qed.

(** X4. In verbose mode, when the setup succeeds and the first compared
    record is answered, the script runs to its end: every compared record
    is queried and counted once, as a match exactly when its verdict is a
    match. *)
Theorem verbose_run_counts_every_record (env : Env) (opts : Opts) (z : list Entry) :
  dnspython_installed env = true ->
  missing_required opts = false ->
  from_file env (str_opt (zonefile opts)) (str_opt (zone opts)) = inr z ->
  verbose opts = true ->
  first_answered env opts z = true ->
  let vs := expected_verdicts env opts z in
  exists st',
    script env opts initial = Normal tt st' /\
    matches st' = count_of true vs /\
    mismatches st' = count_of false vs /\
    matches st' + mismatches st' = Z.of_nat (List.length (compared opts z)) /\
    issued st' = List.length (compared opts z).
Proof.
  intros Hi Hm Hz Hv Hf vs.
  rewrite (script_after_setup env opts z Hi Hm Hz). unfold bind.
  destruct (verbose_loop_trace env opts (compared opts z) Hv initial)
    as (st1 & Hrun & Hms & Hmms & Hk & _).
  { apply first_answered_iff in Hf. exact Hf. }
  rewrite Hrun, epilogue_spec. eexists. split; [reflexivity|].
  cbn [initial matches mismatches issued] in Hms, Hmms, Hk.
  unfold with_out. cbn [matches mismatches issued].
  rewrite Hms, Hmms, Hk, !Z.add_0_l.
  fold (expected_verdicts env opts z). fold vs.
  repeat split. rewrite count_of_total. unfold vs, expected_verdicts.
  rewrite verdicts_from_length. reflexivity.
Qed.

(** X5. The output of such a run: one block per compared record, in zone
    order, whose [Got] line shows what [rd] holds after the query (the
    last answer of this record, or of the latest record before it that
    had one); then [done] and the summary, without the hint. *)
Theorem verbose_run_output (env : Env) (opts : Opts) (z : list Entry) :
  dnspython_installed env = true ->
  missing_required opts = false ->
  from_file env (str_opt (zonefile opts)) (str_opt (zone opts)) = inr z ->
  verbose opts = true ->
  first_answered env opts z = true ->
  let vs := expected_verdicts env opts z in
  trace (run env opts)
  = verbose_blocks env opts 0 None (compared opts z)
      ++ [ Write Stdout ("done" ++ nl);
           Write Stdout (nl ++ "Results:" ++ nl);
           Write Stdout ("Matches:      " ++ str_int (count_of true vs) ++ nl);
           Write Stdout ("Mis-matches:  " ++ str_int (count_of false vs) ++ nl) ].
Proof.
  intros Hi Hm Hz Hv Hf vs. rewrite run_closed_form. unfold run_shape.
  rewrite Hi, Hm, Hz, Hv, Hf. reflexivity.
Qed.

(** X7. The script sends no query when the zone file does not load, and
    never more queries than there are compared records; a run that ends
    with status 0 has sent exactly one per compared record. *)
Theorem queries_sent (env : Env) (opts : Opts) :
  match from_file env (str_opt (zonefile opts)) (str_opt (zone opts)) with
  | inl _ => queries (run env opts) = 0%nat
  | inr z =>
      (queries (run env opts) <= List.length (compared opts z))%nat /\
      (status (run env opts) = 0 ->
       queries (run env opts) = List.length (compared opts z))
  end.
Proof.
  rewrite run_closed_form. unfold run_shape.
  destruct (dnspython_installed env); cbn [negb].
  2:{ destruct (from_file env _ _); cbn [queries status];
        [reflexivity|split; [lia|discriminate]]. }
  destruct (missing_required opts).
  { destruct (from_file env _ _); cbn [queries status];
      [reflexivity|split; [lia|discriminate]]. }
  destruct (from_file env _ _) as [e|z]; [reflexivity|].
  destruct (verbose opts).
  - destruct (first_answered env opts z) eqn:Hf; cbn [queries status].
    + split; [lia|reflexivity].
    + split; [|discriminate]. unfold first_answered in Hf.
      destruct (compared opts z); [discriminate|]. cbn [List.length]. lia.
  - cbn [queries status]. split; [lia|reflexivity].
Qed.

(** X11. A zone that holds only SOA and NS records, read with neither
    [--soa] nor [--ns]: no query is sent, and in either mode the output is
    [done] and a summary of zero matches and zero mismatches, without the
    hint; the status is 0. *)
Theorem nothing_to_compare (env : Env) (opts : Opts) (z : list Entry) :
  dnspython_installed env = true ->
  missing_required opts = false ->
  from_file env (str_opt (zonefile opts)) (str_opt (zone opts)) = inr z ->
  compare_soa opts = false ->
  compare_ns opts = false ->
  (forall e, In e z -> rdtype (snd e) = SOA \/ rdtype (snd e) = NS) ->
  run env opts
  = mkProcess
      [ Write Stdout ("done" ++ nl);
        Write Stdout (nl ++ "Results:" ++ nl);
        Write Stdout ("Matches:      0" ++ nl);
        Write Stdout ("Mis-matches:  0" ++ nl) ]
      0 0.
Proof.
  intros Hi Hm Hz Hs Hn Hall.
  assert (Hc : compared opts z = []).
  { clear Hz. unfold compared. induction z as [|e z IH]; [reflexivity|].
    cbn [filter]. replace (skipped opts (snd e)) with true.
    - cbn [negb]. apply IH. intros e' He'. apply Hall. right. exact He'.
    - unfold skipped. rewrite Hs, Hn. destruct (Hall e (or_introl eq_refl)) as [H|H];
        rewrite H; reflexivity. }
  rewrite run_closed_form. unfold run_shape, first_answered, expected_verdicts.
  rewrite Hi, Hm, Hz, Hc. destruct (verbose opts); reflexivity.
Qed.


(** *** What a run never prints *)

Lemma verbose_blocks_filter (f : Event -> bool) (env : Env) (opts : Opts) :
  (forall name rdata m, filter f (block_head opts name rdata m) = []) ->
  (forall cur, f (got_event cur) = false) ->
  forall recs k old, filter f (verbose_blocks env opts k old recs) = [].
Proof.
  intros Hhead Hgot. induction recs as [|e recs IH]; intros k old; [reflexivity|].
  cbn [verbose_blocks]. rewrite !filter_app, Hhead, IH.
  cbn [filter app]. rewrite Hgot. reflexivity.
Qed.

Lemma progress_not_on_stderr (vs : list bool) :
  filter on_stderr (progress vs) = [].
Proof.
  induction vs as [|v vs IH]; [reflexivity|].
  unfold progress in *. cbn [flat_map]. rewrite filter_app, IH. reflexivity.
Qed.

(** X8. In verbose mode no run, however it ends, flushes standard output
    or writes a progress character. *)
Theorem verbose_run_prints_no_progress (env : Env) (opts : Opts) :
  verbose opts = true ->
  filter is_progress (trace (run env opts)) = [].
Proof.
  intros Hv. rewrite run_closed_form. unfold run_shape. rewrite Hv.
  assert (Hblocks : forall recs k old,
             filter is_progress (verbose_blocks env opts k old recs) = []).
  { apply verbose_blocks_filter.
    - intros name rdata m. destruct m; reflexivity.
    - intros [r|]; reflexivity. }
  destruct (dnspython_installed env); cbn [negb]; [|reflexivity].
  destruct (missing_required opts); [reflexivity|].
  destruct (from_file env _ _) as [e|z]; [reflexivity|].
  destruct (first_answered env opts z); cbn [trace];
    rewrite filter_app, Hblocks; reflexivity.
Qed.

(** Standard error once optparse has returned the options: nothing, or
    the traceback of an exception that was not caught. *)
Lemma stderr_after_options (env : Env) (opts : Opts) :
  (status (run env opts) = 1 /\
   exists e, filter on_stderr (trace (run env opts)) = [Traceback e]) \/
  (status (run env opts) <> 1 /\
   filter on_stderr (trace (run env opts)) = []).
Proof.
  rewrite run_closed_form. unfold run_shape.
  assert (Hblocks : forall recs k old,
             filter on_stderr (verbose_blocks env opts k old recs) = []).
  { apply verbose_blocks_filter.
    - intros name rdata m. reflexivity.
    - intros [r|]; reflexivity. }
  assert (Hsum : forall h m mm, filter on_stderr (summary h m mm) = []).
  { intros [|] m mm; reflexivity. }
  destruct (dnspython_installed env); cbn [negb].
  2:{ right. split; [discriminate|reflexivity]. }
  destruct (missing_required opts).
  { right. split; [discriminate|reflexivity]. }
  destruct (from_file env _ _) as [e|z].
  { left. split; [reflexivity|]. exists e. reflexivity. }
  destruct (verbose opts).
  - destruct (first_answered env opts z); cbn [trace status].
    + right. split; [discriminate|]. rewrite filter_app, Hblocks, Hsum. reflexivity.
    + left. split; [reflexivity|]. exists (NameError "rd").
      rewrite filter_app, Hblocks. reflexivity.
  - cbn [trace status]. right. split; [discriminate|].
    rewrite filter_app, progress_not_on_stderr, Hsum. reflexivity.
Qed.

(** X9. What reaches standard error in an invocation is one of three
    things: the usage and the message of optparse when it refuses the
    command line, and then the status is 2; the traceback of an exception
    that was not caught, and then the status is 1; or nothing, and then
    the status is neither.  The statements of the script itself never
    write there. *)
Theorem stderr_of_invocation (env : Env) (cmd : Parse) :
  let p := invoke env cmd in
  (status p = 2 /\
   exists usage message,
     cmd = OptionError usage message /\
     filter on_stderr (trace p) = [Write Stderr usage; Write Stderr message]) \/
  (status p = 1 /\
   exists e, filter on_stderr (trace p) = [Traceback e]) \/
  (status p <> 1 /\ status p <> 2 /\ filter on_stderr (trace p) = []).
Proof.
  cbv zeta. destruct cmd as [opts|usage message|help].
  - rewrite invoke_parsed.
    destruct (stderr_after_options env opts) as [[Hs He]|[Hs He]].
    + right. left. split; [exact Hs|exact He].
    + right. right. split; [exact Hs|]. split; [|exact He].
      pose proof (status_after_options env opts) as H. rewrite H.
      destruct (negb (dnspython_installed env) || missing_required opts);
        [discriminate|].
      destruct (from_file env _ _); [discriminate|].
      destruct (verbose opts && negb (first_answered env opts l)); discriminate.
  - unfold invoke, program, import_guard.
    destruct (dnspython_installed env).
    + left. split; [reflexivity|]. exists usage, message. split; reflexivity.
    + right. right. repeat split; discriminate.
  - unfold invoke, program, import_guard.
    destruct (dnspython_installed env); right; right; repeat split; discriminate.
Qed.

(** *** TTLs *)

Lemma after_try_without_ttl (rdata : Rdata) (qr1 qr2 : QueryResult) (st : State) :
  without_ttl qr1 = without_ttl qr2 ->
  after_try rdata qr1 st = after_try rdata qr2 st.
Proof.
  destruct qr1 as [t1 r1|e1], qr2 as [t2 r2|e2]; cbn [without_ttl];
    intros H; try discriminate; injection H as ->; reflexivity.
Qed.

Lemma compare_record_without_ttl
  (env1 env2 : Env) (opts : Opts) (name : Name) (rdata : Rdata) (st : State) :
  (forall k ns n t c,
      without_ttl (query env1 k ns n t c) = without_ttl (query env2 k ns n t c)) ->
  compare_record env1 opts name rdata st = compare_record env2 opts name rdata st.
Proof.
  intros Hq. unfold compare_record, bind. rewrite !try_query_spec.
  rewrite (after_try_without_ttl rdata
             (answer_for env1 opts (issued st) name rdata)
             (answer_for env2 opts (issued st) name rdata) st) by apply Hq.
  reflexivity.
Qed.

Lemma loop_without_ttl (env1 env2 : Env) (opts : Opts) :
  (forall k ns n t c,
      without_ttl (query env1 k ns n t c) = without_ttl (query env2 k ns n t c)) ->
  forall z1 z2,
    map entry_key z1 = map entry_key z2 ->
    forall st,
      for_each (loop_body env1 opts) z1 st = for_each (loop_body env2 opts) z2 st.
Proof.
  intros Hq. induction z1 as [|[[n1 t1] r1] z1 IH]; intros [|[[n2 t2] r2] z2] Hk st;
    try discriminate; [reflexivity|].
  cbn [map entry_key fst snd] in Hk. injection Hk as -> -> Hk.
  cbn [for_each]. unfold bind, loop_body.
  destruct (skipped opts r2).
  - unfold ret. apply IH, Hk.
  - rewrite (compare_record_without_ttl env1 env2 opts n2 r2 st Hq).
    destruct (compare_record env2 opts n2 r2 st); [apply IH, Hk|reflexivity].
Qed.

(** X6. The TTLs are never looked at: two runs with the same options,
    whose zones hold the same names and rdatas in the same order and
    whose servers give the same rdatas or raise the same exception to
    every query, do the same, whatever the TTLs in the zones and in the
    answers are. *)
Theorem run_ignores_ttl (env1 env2 : Env) (opts : Opts) (z1 z2 : list Entry) :
  dnspython_installed env1 = dnspython_installed env2 ->
  from_file env1 (str_opt (zonefile opts)) (str_opt (zone opts)) = inr z1 ->
  from_file env2 (str_opt (zonefile opts)) (str_opt (zone opts)) = inr z2 ->
  map entry_key z1 = map entry_key z2 ->
  (forall k ns n t c,
      without_ttl (query env1 k ns n t c) = without_ttl (query env2 k ns n t c)) ->
  run env1 opts = run env2 opts.
Proof.
  intros Hi Hz1 Hz2 Hk Hq.
  assert (Hs : script env1 opts initial = script env2 opts initial).
  { unfold script, import_guard, after_options, load_zone. rewrite Hi, Hz1, Hz2.
    destruct (dnspython_installed env2); [|reflexivity].
    destruct (missing_required opts); [reflexivity|].
    unfold bind at 1. unfold ret at 1. unfold bind at 1. unfold ret at 1.
    unfold bind at 1. unfold ret at 1. unfold bind at 1. unfold modify at 1.
    unfold bind at 1. unfold modify at 1.
    symmetry.
    unfold bind at 1. unfold ret at 1. unfold bind at 1. unfold ret at 1.
    unfold bind at 1. unfold ret at 1. unfold bind at 1. unfold modify at 1.
    unfold bind at 1. unfold modify at 1.
    unfold bind. rewrite (loop_without_ttl env1 env2 opts Hq z1 z2 Hk).
    reflexivity. }
  unfold run. rewrite Hs. reflexivity.
Qed.


(** *** What the verdict depends on *)

Lemma existsb_permutation {A} (f : A -> bool) (l l' : list A) :
  Permutation l l' -> existsb f l = existsb f l'.
Proof.
  induction 1 as [|x l l' _ IH|x y l|l l' l'' _ IH1 _ IH2]; cbn [existsb].
  - reflexivity.
  - rewrite IH. reflexivity.
  - destruct (f x), (f y); reflexivity.
  - congruence.
Qed.

(** X14. Whether a record matches does not depend on the order in which
    the server lists its answers, nor on the TTL of the answer: after the
    [try] statement [match] is the same for any rearrangement of the same
    rdatas. *)
Theorem verdict_ignores_answer_order
  (env1 env2 : Env) (opts : Opts) (name : Name) (rdata : Rdata) (st : State)
  (ttl1 ttl2 : Z) (rds1 rds2 : list Rdata) :
  answer_for env1 opts (issued st) name rdata = Answer ttl1 rds1 ->
  answer_for env2 opts (issued st) name rdata = Answer ttl2 rds2 ->
  Permutation rds1 rds2 ->
  match_ (final_store (try_query env1 opts name rdata st))
  = match_ (final_store (try_query env2 opts name rdata st)).
Proof.
  intros H1 H2 Hp. rewrite !try_query_spec, H1, H2.
  cbn [final_store after_try match_ expected_verdict].
  rewrite (existsb_permutation _ rds1 rds2 Hp). reflexivity.
Qed.

(** X13. Without [--verbose] a run shows of every answer only whether it
    holds the expected rdata: two servers whose answers give the same
    verdict on every query lead to the same output, the same status and
    the same number of queries, whatever else differs (the kind of
    failure, other rdatas, their order, the TTLs). *)
Theorem quiet_run_depends_on_verdicts (env1 env2 : Env) (opts : Opts) :
  verbose opts = false ->
  dnspython_installed env1 = dnspython_installed env2 ->
  from_file env1 (str_opt (zonefile opts)) (str_opt (zone opts))
  = from_file env2 (str_opt (zonefile opts)) (str_opt (zone opts)) ->
  (forall k name rdata,
      expected_verdict rdata (answer_for env1 opts k name rdata)
      = expected_verdict rdata (answer_for env2 opts k name rdata)) ->
  run env1 opts = run env2 opts.
Proof.
  intros Hv Hi Hz Hq. rewrite !run_closed_form. unfold run_shape.
  rewrite Hi, Hz, Hv.
  destruct (dnspython_installed env2); cbn [negb]; [|reflexivity].
  destruct (missing_required opts); [reflexivity|].
  destruct (from_file env2 _ _) as [e|z]; [reflexivity|].
  assert (Hvs : expected_verdicts env1 opts z = expected_verdicts env2 opts z).
  { unfold expected_verdicts, verdicts_from. apply map_ext. intros ke. apply Hq. }
  rewrite Hvs. reflexivity.
Qed.

End Whole_runs.

(** ** Concrete runs *)

#[local] Existing Instance Sample.text_dns.

(** Closed statements about concrete runs are settled by running the
    embedding. *)
Ltac by_running :=
  cbv zeta;
  repeat match goal with |- _ /\ _ => split end;
  vm_compute; reflexivity.

(** C2 at a failing input.  Verbose mode; a zone with its SOA and NS
    records and two [A] records; a server that never answers.  The SOA and
    NS records are skipped, the query for the first [A] record times out,
    the [Got] line raises [NameError], and the loop is left with the second
    [A] record never queried and no outcome counted, though two records are
    to be compared. *)
Theorem verbose_timeout_aborts_loop :
  let z := [Sample.apex_soa; Sample.apex_ns; Sample.www; Sample.mail] in
  let env := Sample.env_of z Sample.silent in
  let opts := Sample.opts_of true in
  compared opts z = [Sample.www; Sample.mail] /\
  run env opts
  = mkProcess
      (block_head opts (fst (fst Sample.www)) (snd Sample.www) false
         ++ [Write Stdout "Got     : "; Traceback (NameError "rd")])
      1 1 /\
  matches (final_store (script env opts initial))
  + mismatches (final_store (script env opts initial)) = 0.
Proof. by_running. Qed.

(** C5 at a failing input.  Verbose mode; a zone with its SOA and NS
    records and two [A] records; the first query is answered, the second
    times out.  The block of the second [A] record shows the last answer to
    the first query after [Got], while the timeout stays in [result] and is
    never printed. *)
Theorem verbose_failure_shows_stale_answer :
  let z := [Sample.apex_soa; Sample.apex_ns; Sample.www; Sample.mail] in
  let env := Sample.env_of z Sample.first_only in
  let opts := Sample.opts_of true in
  compared opts z = [Sample.www; Sample.mail] /\
  trace (run env opts)
  = block_head opts (fst (fst Sample.www)) (snd Sample.www) true
      ++ [got_line "192.0.2.9"]
      ++ block_head opts (fst (fst Sample.mail)) (snd Sample.mail) false
      ++ [got_line "192.0.2.9"]
      ++ summary false 1 1 /\
  result (final_store (script env opts initial)) = Some (VClass Timeout).
Proof. by_running. Qed.

(** C8 at a failing input.  dnspython is there, the three required options
    are given and the zone file, with its SOA and NS records and one [A]
    record, loads; yet the exit status is 1: verbose mode, and the query of
    the first compared record times out. *)
Theorem verbose_timeout_exit_status :
  let z := [Sample.apex_soa; Sample.apex_ns; Sample.www] in
  let env := Sample.env_of z Sample.silent in
  let opts := Sample.opts_of true in
  dnspython_installed env = true /\
  missing_required opts = false /\
  from_file env (str_opt (zonefile opts)) (str_opt (zone opts)) = inr z /\
  compared opts z = [Sample.www] /\
  invoke env (Parsed opts)
  = mkProcess
      (block_head opts (fst (fst Sample.www)) (snd Sample.www) false
         ++ [Write Stdout "Got     : "; Traceback (NameError "rd")])
      1 1 /\
  status (run env opts) = 1.
Proof. by_running. Qed.

(** C6 as stated fails: with [--server] missing, nothing is written to
    standard error; the line about the required arguments is on standard
    output. *)
Lemma usage_error_is_on_stdout :
  let p := run (Sample.env_of Sample.small_zone Sample.silent) Sample.no_server in
  filter on_stderr (trace p) = [] /\
  text_of Stderr (trace p) = "" /\
  text_of Stdout (trace p)
  = ("Error: required arguments: --zone, --file, --server" ++ nl)%string.
Proof. by_running. Qed.

(** ** The theorems at concrete inputs

    Each lemma applies one of the theorems above to a run of the [Sample]
    zone and states its hypotheses there together with what follows. *)

Lemma match_iff_some_answer_agrees_witness :
  let env := Sample.env_of Sample.small_zone Sample.first_only in
  let opts := Sample.opts_of false in
  let name := fst (fst Sample.www) in
  let rdata := snd Sample.www in
  answer_for env opts (issued initial) name rdata = Sample.first_only 0 /\
  exists st',
    try_query env opts name rdata initial = Normal tt st' /\ match_ st' = Some true.
Proof.
  cbv zeta. split; [reflexivity|].
  destruct (match_iff_some_answer_agrees
              (Sample.env_of Sample.small_zone Sample.first_only) (Sample.opts_of false)
              (fst (fst Sample.www)) (snd Sample.www) initial 300
              [Sample.A "192.0.2.7"; Sample.A "192.0.2.1"; Sample.A "192.0.2.9"]
              eq_refl)
    as (st' & Hrun & _ & _ & Hsame).
  exists st'. split; [exact Hrun|].
  apply Hsame; [reflexivity|right; left; reflexivity].
Defined.

Lemma last_answer_is_reported_witness :
  let env := Sample.env_of Sample.small_zone Sample.first_only in
  let opts := Sample.opts_of true in
  let name := fst (fst Sample.www) in
  let rdata := snd Sample.www in
  answer_for env opts (issued initial) name rdata = Sample.first_only 0 /\
  exists st',
    compare_record env opts name rdata initial = Normal tt st' /\
    rd st' = Some (Sample.A "192.0.2.9") /\
    out st' = block_head opts name rdata true ++ [got_line "192.0.2.9"].
Proof.
  cbv zeta. split; [reflexivity|].
  destruct (last_answer_is_reported
              (Sample.env_of Sample.small_zone Sample.first_only) (Sample.opts_of true)
              (fst (fst Sample.www)) (snd Sample.www) initial 300
              [Sample.A "192.0.2.7"; Sample.A "192.0.2.1"; Sample.A "192.0.2.9"]
              eq_refl)
    as (st' & m & Hrun & _ & Hrd & Hm & Hout); [discriminate|].
  exists st'. split; [exact Hrun|]. split; [exact Hrd|].
  assert (Em : m = true).
  { apply Hm. exists (Sample.A "192.0.2.1").
    split; [right; left; reflexivity|]. repeat split. }
  rewrite (Hout eq_refl), Em. reflexivity.
Defined.

Lemma ttl_is_not_compared_witness :
  let env := Sample.env_of Sample.small_zone Sample.first_only in
  let opts := Sample.opts_of false in
  skipped opts (snd Sample.www) = false /\
  answer_for env opts (issued initial) (fst (fst Sample.www)) (snd Sample.www)
  = Sample.first_only 0 /\
  exists st',
    loop_body env opts ("www.example.com.", 3600, Sample.A "192.0.2.1") initial
    = Normal tt st' /\
    matches st' = 1 /\
    mismatches st' = 0.
Proof.
  cbv zeta. split; [reflexivity|]. split; [reflexivity|].
  destruct (ttl_is_not_compared
              (Sample.env_of Sample.small_zone Sample.first_only) (Sample.opts_of false)
              "www.example.com." 3600 (Sample.A "192.0.2.1") initial 300
              [Sample.A "192.0.2.7"; Sample.A "192.0.2.1"; Sample.A "192.0.2.9"]
              (Sample.A "192.0.2.1")
              eq_refl eq_refl (or_intror (or_introl eq_refl))
              (conj eq_refl (conj eq_refl eq_refl)))
    as ((st' & Hrun & _ & Hm & Hmm) & _).
  exists st'. split; [exact Hrun|]. split; [exact Hm|exact Hmm].
Defined.

Lemma skip_soa_and_ns_unless_asked_witness :
  let env := Sample.env_of [Sample.apex_soa] Sample.silent in
  let opts := Sample.opts_of false in
  (rdtype (snd Sample.apex_soa) = SOA /\ compare_soa opts = false) /\
  loop_body env opts Sample.apex_soa initial = Normal tt initial.
Proof.
  cbv zeta. split; [split; reflexivity|].
  apply (proj1 (proj2 (skip_soa_and_ns_unless_asked
                         (Sample.env_of [Sample.apex_soa] Sample.silent)
                         (Sample.opts_of false)
                         (fst (fst Sample.apex_soa)) 3600 (snd Sample.apex_soa) initial))).
  left. split; reflexivity.
Defined.

Lemma missing_argument_exits_witness :
  let env := Sample.env_of [Sample.apex_soa; Sample.apex_ns; Sample.www] Sample.silent in
  nameserver Sample.no_server = None /\
  status (invoke env (Parsed Sample.no_server)) = 255 /\
  queries (invoke env (Parsed Sample.no_server)) = 0%nat.
Proof.
  cbv zeta. split; [reflexivity|].
  destruct (missing_argument_exits
              (Sample.env_of [Sample.apex_soa; Sample.apex_ns; Sample.www] Sample.silent)
              Sample.no_server
              (or_intror (or_intror eq_refl)))
    as (Hs & Hq & _).
  split; [exact Hs|exact Hq].
Defined.

Lemma quiet_run_output_witness :
  let z := [Sample.apex_soa; Sample.www; Sample.apex_ns; Sample.mail] in
  let env := Sample.env_of z Sample.first_only in
  let opts := Sample.opts_of false in
  (dnspython_installed env = true /\
   missing_required opts = false /\
   from_file env (str_opt (zonefile opts)) (str_opt (zone opts)) = inr z /\
   verbose opts = false) /\
  trace (run env opts) = progress [true; false] ++ summary true 1 1.
Proof.
  cbv zeta. split; [repeat split|].
  pose proof (quiet_run_output
                (Sample.env_of [Sample.apex_soa; Sample.www; Sample.apex_ns; Sample.mail]
                   Sample.first_only)
                (Sample.opts_of false)
                [Sample.apex_soa; Sample.www; Sample.apex_ns; Sample.mail]
                eq_refl eq_refl eq_refl eq_refl) as H.
  cbv zeta in H. destruct H as (Htrace & _).
  rewrite Htrace. vm_compute. reflexivity.
Defined.

Lemma got_line_prints_loop_variable_witness :
  let z := [Sample.apex_soa; Sample.apex_ns; Sample.www; Sample.mail] in
  let env := Sample.env_of z Sample.silent in
  let opts := Sample.opts_of true in
  verbose opts = true /\
  run env opts
  = mkProcess
      (block_head opts (fst (fst Sample.www)) (snd Sample.www) false
         ++ [Write Stdout "Got     : "; Traceback (NameError "rd")])
      1 1.
Proof.
  cbv zeta. split; [reflexivity|].
  destruct (got_line_prints_loop_variable
              (Sample.env_of [Sample.apex_soa; Sample.apex_ns; Sample.www; Sample.mail] Sample.silent)
              (Sample.opts_of true) eq_refl)
    as (_ & _ & _ & Hrun).
  apply (Hrun [Sample.apex_soa; Sample.apex_ns; Sample.www; Sample.mail]
           (fst (fst Sample.www)) 3600 (snd Sample.www) [Sample.mail] Timeout);
    reflexivity.
Defined.

(** ** Whole runs at concrete inputs *)

Lemma missing_dnspython_exits_witness :
  let env := mkEnv false (fun _ _ => inr Sample.small_zone) (fun _ _ _ _ _ => Sample.silent 0%nat) in
  dnspython_installed env = false /\
  status (run env Sample.no_server) = 255.
Proof.
  cbv zeta. split; [reflexivity|].
  rewrite (missing_dnspython_exits
             (mkEnv false (fun _ _ => inr Sample.small_zone)
                (fun _ _ _ _ _ => Sample.silent 0%nat))
             Sample.no_server eq_refl).
  reflexivity.
Defined.

Lemma unreadable_zone_is_fatal_witness :
  let env :=
    mkEnv true (fun path _ => inl (IOError path)) (fun _ _ _ _ _ => Sample.silent 0%nat) in
  let opts := Sample.opts_of false in
  (dnspython_installed env = true /\
   missing_required opts = false /\
   from_file env (str_opt (zonefile opts)) (str_opt (zone opts))
   = inl (IOError "example.com.zone")) /\
  run env opts = mkProcess [Traceback (IOError "example.com.zone")] 1 0.
Proof.
  cbv zeta. split; [repeat split|].
  apply (unreadable_zone_is_fatal
           (mkEnv true (fun path _ => inl (IOError path))
              (fun _ _ _ _ _ => Sample.silent 0%nat))
           (Sample.opts_of false) (IOError "example.com.zone"));
    reflexivity.
Defined.

Lemma quiet_run_counts_every_record_witness :
  let z := [Sample.apex_soa; Sample.apex_ns; Sample.www; Sample.mail] in
  let env := Sample.env_of z Sample.silent in
  let opts := Sample.opts_of false in
  (dnspython_installed env = true /\
   missing_required opts = false /\
   from_file env (str_opt (zonefile opts)) (str_opt (zone opts)) = inr z /\
   verbose opts = false) /\
  exists st',
    script env opts initial = Normal tt st' /\
    matches st' + mismatches st' = 2.
Proof.
  cbv zeta. split; [repeat split|].
  destruct (quiet_run_counts_every_record
              (Sample.env_of [Sample.apex_soa; Sample.apex_ns; Sample.www; Sample.mail] Sample.silent)
              (Sample.opts_of false)
              [Sample.apex_soa; Sample.apex_ns; Sample.www; Sample.mail]
              eq_refl eq_refl eq_refl eq_refl)
    as (st' & Hrun & Hsum & _).
  exists st'. split; [exact Hrun|exact Hsum].
Defined.

Lemma verbose_run_counts_every_record_witness :
  let z := [Sample.apex_soa; Sample.apex_ns; Sample.www; Sample.mail] in
  let env := Sample.env_of z Sample.first_only in
  let opts := Sample.opts_of true in
  (dnspython_installed env = true /\
   missing_required opts = false /\
   from_file env (str_opt (zonefile opts)) (str_opt (zone opts)) = inr z /\
   verbose opts = true /\
   first_answered env opts z = true) /\
  exists st',
    script env opts initial = Normal tt st' /\
    matches st' + mismatches st' = 2.
Proof.
  cbv zeta. split; [repeat split|].
  destruct (verbose_run_counts_every_record
              (Sample.env_of [Sample.apex_soa; Sample.apex_ns; Sample.www; Sample.mail] Sample.first_only)
              (Sample.opts_of true)
              [Sample.apex_soa; Sample.apex_ns; Sample.www; Sample.mail]
              eq_refl eq_refl eq_refl eq_refl eq_refl)
    as (st' & Hrun & _ & _ & Hsum & _).
  exists st'. split; [exact Hrun|exact Hsum].
Defined.

Lemma verbose_run_output_witness :
  let z := [Sample.apex_soa; Sample.apex_ns; Sample.www; Sample.mail] in
  let env := Sample.env_of z Sample.first_only in
  let opts := Sample.opts_of true in
  first_answered env opts z = true /\
  trace (run env opts)
  = block_head opts (fst (fst Sample.www)) (snd Sample.www) true
      ++ [got_line "192.0.2.9"]
      ++ block_head opts (fst (fst Sample.mail)) (snd Sample.mail) false
      ++ [got_line "192.0.2.9"]
      ++ summary false 1 1.
Proof.
  cbv zeta. split; [reflexivity|].
  rewrite (verbose_run_output
             (Sample.env_of [Sample.apex_soa; Sample.apex_ns; Sample.www; Sample.mail]
                Sample.first_only)
             (Sample.opts_of true)
             [Sample.apex_soa; Sample.apex_ns; Sample.www; Sample.mail]
             eq_refl eq_refl eq_refl eq_refl eq_refl).
  vm_compute. reflexivity.
Defined.

Lemma run_ignores_ttl_witness :
  let z1 := [Sample.apex_soa; Sample.apex_ns; Sample.www; Sample.mail] in
  let z2 : list Entry :=
    [(fst (fst Sample.apex_soa), 900, snd Sample.apex_soa);
     (fst (fst Sample.apex_ns), 172800, snd Sample.apex_ns);
     ("www.example.com.", 60, Sample.A "192.0.2.1");
     ("mail.example.com.", 86400, Sample.A "192.0.2.25")] in
  let server2 k :=
    match k with
    | O => Answer 5 [Sample.A "192.0.2.7"; Sample.A "192.0.2.1"; Sample.A "192.0.2.9"]
    | _ => Raises Timeout
    end in
  map entry_key z1 = map entry_key z2 /\
  run (Sample.env_of z1 Sample.first_only) (Sample.opts_of true)
  = run (Sample.env_of z2 server2) (Sample.opts_of true).
Proof.
  cbv zeta. split; [reflexivity|].
  apply (run_ignores_ttl
           (Sample.env_of [Sample.apex_soa; Sample.apex_ns; Sample.www; Sample.mail]
              Sample.first_only)
           (Sample.env_of
              [(fst (fst Sample.apex_soa), 900, snd Sample.apex_soa);
               (fst (fst Sample.apex_ns), 172800, snd Sample.apex_ns);
               ("www.example.com.", 60, Sample.A "192.0.2.1");
               ("mail.example.com.", 86400, Sample.A "192.0.2.25")]
              (fun k =>
                 match k with
                 | O => Answer 5 [Sample.A "192.0.2.7"; Sample.A "192.0.2.1";
                                  Sample.A "192.0.2.9"]
                 | _ => Raises Timeout
                 end))
           (Sample.opts_of true)
           [Sample.apex_soa; Sample.apex_ns; Sample.www; Sample.mail]
           [(fst (fst Sample.apex_soa), 900, snd Sample.apex_soa);
            (fst (fst Sample.apex_ns), 172800, snd Sample.apex_ns);
            ("www.example.com.", 60, Sample.A "192.0.2.1");
            ("mail.example.com.", 86400, Sample.A "192.0.2.25")]);
    try reflexivity.
  intros [|k] ns n t c; reflexivity.
Defined.

Lemma verbose_run_prints_no_progress_witness :
  let env :=
    Sample.env_of [Sample.apex_soa; Sample.apex_ns; Sample.www; Sample.mail] Sample.silent in
  verbose (Sample.opts_of true) = true /\
  filter is_progress (trace (run env (Sample.opts_of true))) = [].
Proof.
  cbv zeta. split; [reflexivity|].
  apply (verbose_run_prints_no_progress
           (Sample.env_of [Sample.apex_soa; Sample.apex_ns; Sample.www; Sample.mail]
              Sample.silent)
           (Sample.opts_of true)).
  reflexivity.
Defined.

Lemma record_counted_once_witness :
  let env := Sample.env_of Sample.small_zone Sample.first_only in
  let opts := Sample.opts_of false in
  let st' := final_store (compare_record env opts (fst (fst Sample.www)) (snd Sample.www) initial) in
  compare_record env opts (fst (fst Sample.www)) (snd Sample.www) initial = Normal tt st' /\
  matches st' = 1 /\
  mismatches st' = 0.
Proof.
  cbv zeta.
  assert (Hrun : compare_record (Sample.env_of Sample.small_zone Sample.first_only)
                   (Sample.opts_of false) (fst (fst Sample.www)) (snd Sample.www) initial
                 = Normal tt
                     (final_store
                        (compare_record (Sample.env_of Sample.small_zone Sample.first_only)
                           (Sample.opts_of false) (fst (fst Sample.www)) (snd Sample.www)
                           initial))).
  { vm_compute. reflexivity. }
  split; [exact Hrun|].
  destruct (record_counted_once _ _ _ _ _ _ Hrun) as (_ & _ & Hm & Hmm).
  split; [exact Hm|exact Hmm].
Defined.

Lemma nothing_to_compare_witness :
  let z := [Sample.apex_soa; Sample.apex_ns] in
  let env := Sample.env_of z Sample.first_only in
  let opts := Sample.opts_of true in
  (compare_soa opts = false /\ compare_ns opts = false) /\
  status (run env opts) = 0 /\
  queries (run env opts) = 0%nat.
Proof.
  cbv zeta. split; [split; reflexivity|].
  rewrite (nothing_to_compare
             (Sample.env_of [Sample.apex_soa; Sample.apex_ns] Sample.first_only)
             (Sample.opts_of true) [Sample.apex_soa; Sample.apex_ns]
             eq_refl eq_refl eq_refl eq_refl eq_refl).
  - split; reflexivity.
  - intros e [<-|[<-|[]]]; [left|right]; reflexivity.
Defined.

Lemma verdict_ignores_answer_order_witness :
  let rds1 := [Sample.A "192.0.2.7"; Sample.A "192.0.2.1"; Sample.A "192.0.2.9"] in
  let rds2 := [Sample.A "192.0.2.1"; Sample.A "192.0.2.7"; Sample.A "192.0.2.9"] in
  let env1 := Sample.env_of Sample.small_zone (fun _ => Answer 300 rds1) in
  let env2 := Sample.env_of Sample.small_zone (fun _ => Answer 60 rds2) in
  let opts := Sample.opts_of false in
  Permutation rds1 rds2 /\
  match_ (final_store (try_query env1 opts (fst (fst Sample.www)) (snd Sample.www) initial))
  = match_ (final_store (try_query env2 opts (fst (fst Sample.www)) (snd Sample.www) initial)).
Proof.
  cbv zeta. split; [apply perm_swap|].
  apply (verdict_ignores_answer_order
           (Sample.env_of Sample.small_zone
              (fun _ => Answer 300
                 [Sample.A "192.0.2.7"; Sample.A "192.0.2.1"; Sample.A "192.0.2.9"]))
           (Sample.env_of Sample.small_zone
              (fun _ => Answer 60
                 [Sample.A "192.0.2.1"; Sample.A "192.0.2.7"; Sample.A "192.0.2.9"]))
           (Sample.opts_of false) (fst (fst Sample.www)) (snd Sample.www) initial
           300 60
           [Sample.A "192.0.2.7"; Sample.A "192.0.2.1"; Sample.A "192.0.2.9"]
           [Sample.A "192.0.2.1"; Sample.A "192.0.2.7"; Sample.A "192.0.2.9"]
           eq_refl eq_refl).
  apply perm_swap.
Defined.

Lemma quiet_run_depends_on_verdicts_witness :
  let z := [Sample.apex_soa; Sample.apex_ns; Sample.www; Sample.mail] in
  let env1 := Sample.env_of z Sample.silent in
  let env2 := Sample.env_of z (fun _ => Raises NXDOMAIN) in
  verbose (Sample.opts_of false) = false /\
  run env1 (Sample.opts_of false) = run env2 (Sample.opts_of false).
Proof.
  cbv zeta. split; [reflexivity|].
  apply (quiet_run_depends_on_verdicts
           (Sample.env_of [Sample.apex_soa; Sample.apex_ns; Sample.www; Sample.mail]
              Sample.silent)
           (Sample.env_of [Sample.apex_soa; Sample.apex_ns; Sample.www; Sample.mail]
              (fun _ => Raises NXDOMAIN))
           (Sample.opts_of false));
    reflexivity.
Defined.
